(** * FuzzyTime: the suggestion core of [src/timeParser.ts]

    A shallow embedding of [TimeParser.suggest] and its helpers, and the
    properties of the specification stated over it.

    Conventions of the embedding.
    - A JavaScript string is a Rocq [string]; each character stands for one
      code unit below 256, so the development covers Latin-1 input.
    - A JavaScript number that holds an integer is a [Z]; [undefined] and
      [NaN] are [None].  [parseInt] of a digit run is exact here, in
      JavaScript it is exact below 2^53.
    - An exception is a value of [result]; the only one the file can raise
      itself is the [RangeError] of [String.prototype.repeat].
    - Sugar's [Date] library, which the file calls but does not contain, is
      the interface [CalendarEngine]; the ambient clock is the argument
      [now] of every operation that reads it.  What an operation returns is
      in [CalendarEngine], when it raises is in [EngineExceptions];
      [suggest] is the function on the engine's answers, [Raising.suggest]
      the function with the engine's exceptions, and a run of the second
      that returns returns the list of the first. *)

From Stdlib Require Import ZArith Ascii String List Bool Lia.
From stdpp Require Import base option list strings pretty.

Local Open Scope Z_scope.

(** ** Exceptions *)

Inductive JsError : Type :=
| RangeError.

Inductive result (A : Type) : Type :=
| Ok (a : A)
| Throw (e : JsError).

Arguments Ok {A} a.
Arguments Throw {A} e.

#[global] Instance result_ret : MRet result := fun A a => Ok a.
#[global] Instance result_bind : MBind result := fun A B k r =>
  match r with
  | Ok a => k a
  | Throw e => Throw e
  end.

Definition returns {A : Type} (r : result A) : Prop := exists a, r = Ok a.

(** ** JavaScript strings *)

Module Js.

Definition code (c : ascii) : N := N_of_ascii c.

(** [\d] *)
Definition isDigit (c : ascii) : bool :=
  ((48 <=? code c) && (code c <=? 57))%N.

(** [\s], and the characters [trim] removes: tab, line feed, vertical
    tab, form feed, carriage return, space, no-break space. *)
Definition isSpace (c : ascii) : bool :=
  ((9 <=? code c) && (code c <=? 13) || (code c =? 32) || (code c =? 160))%N.

(** [\w] *)
Definition isWordChar (c : ascii) : bool :=
  ((48 <=? code c) && (code c <=? 57) || (65 <=? code c) && (code c <=? 90)
   || (97 <=? code c) && (code c <=? 122) || (code c =? 95))%N.

Definition lowerChar (c : ascii) : ascii :=
  if ((65 <=? code c) && (code c <=? 90)
      || (192 <=? code c) && (code c <=? 222) && negb (code c =? 215))%N
  then ascii_of_N (code c + 32)
  else c.

Fixpoint toLowerCase (s : string) : string :=
  match s with
  | EmptyString => EmptyString
  | String c s' => String (lowerChar c) (toLowerCase s')
  end.

Fixpoint trimStart (s : string) : string :=
  match s with
  | EmptyString => EmptyString
  | String c s' => if isSpace c then trimStart s' else s
  end.

Fixpoint trimEnd (s : string) : string :=
  match s with
  | EmptyString => EmptyString
  | String c s' =>
      match trimEnd s' with
      | EmptyString => if isSpace c then EmptyString else String c EmptyString
      | r => String c r
      end
  end.

Definition trim (s : string) : string := trimEnd (trimStart s).

(** [s.length] *)
Definition length (s : string) : Z := Z.of_nat (String.length s).

Definition isEmpty (s : string) : bool :=
  match s with
  | EmptyString => true
  | String _ _ => false
  end.

(** [s.startsWith(p)] *)
Fixpoint startsWith (s p : string) : bool :=
  match p, s with
  | EmptyString, _ => true
  | String _ _, EmptyString => false
  | String b p', String a s' => Ascii.eqb a b && startsWith s' p'
  end.

Fixpoint drop (n : nat) (s : string) : string :=
  match n, s with
  | O, _ => s
  | S _, EmptyString => EmptyString
  | S k, String _ s' => drop k s'
  end.

(** The longest prefix of characters satisfying [p], and what follows. *)
Fixpoint span (p : ascii -> bool) (s : string) : string * string :=
  match s with
  | EmptyString => (EmptyString, EmptyString)
  | String c s' =>
      if p c then let '(a, b) := span p s' in (String c a, b)
      else (EmptyString, s)
  end.

Fixpoint contains (c : ascii) (s : string) : bool :=
  match s with
  | EmptyString => false
  | String a s' => Ascii.eqb a c || contains c s'
  end.

Fixpoint copies (n : nat) (s : string) : string :=
  match n with
  | O => EmptyString
  | S k => s +:+ copies k s
  end.

(** [s.repeat(count)]: a negative count is a [RangeError]. *)
Definition repeat (s : string) (count : Z) : result string :=
  if count <? 0 then Throw RangeError else Ok (copies (Z.to_nat count) s).

(** [s.replace(from, to)] for one-character strings: the first
    occurrence only. *)
Fixpoint replaceChar (from to : ascii) (s : string) : string :=
  match s with
  | EmptyString => EmptyString
  | String c s' =>
      if Ascii.eqb c from then String to s' else String c (replaceChar from to s')
  end.

(** [parseInt(s)] on a run of digits. *)
Definition digitValue (c : ascii) : Z := Z.of_N (code c) - 48.

Fixpoint parseDigits (acc : Z) (s : string) : Z :=
  match s with
  | EmptyString => acc
  | String c s' => if isDigit c then parseDigits (10 * acc + digitValue c) s' else acc
  end.

Definition parseInt (s : string) : Z := parseDigits 0 s.

(** Truthiness of a string or of a number that may be [undefined]. *)
Definition truthyString (o : option string) : bool :=
  match o with
  | Some s => negb (isEmpty s)
  | None => false
  end.

Definition truthyNumber (o : option Z) : bool :=
  match o with
  | Some n => negb (n =? 0)
  | None => false
  end.

(** [`${n}`] *)
Definition showNumber (o : option Z) : string :=
  match o with
  | Some n => pretty n
  | None => "undefined"
  end.

Definition forallChars (p : ascii -> bool) (s : string) : bool :=
  forallb p (list_ascii_of_string s).

(** No character of [s] is a digit. *)
Fixpoint digitFree (s : string) : Prop :=
  match s with
  | EmptyString => True
  | String c s' => isDigit c = false /\ digitFree s'
  end.

(** [s] is a run of digits, one at least. *)
Definition allDigits (s : string) : bool :=
  negb (isEmpty s) && forallChars isDigit s.

End Js.

(** ** The tokenizer: lines 24 to 45 *)

(** One match of the digit pattern of line 27: a run of digits, then
    optionally a minute group (a colon or a dot and any digits), then any
    spaces, then optionally a suffix.  The record holds the three groups, an
    unmatched group being [undefined]. *)
Record DigitMatch : Type := mkDigitMatch {
  num : string;
  min : option string;
  suffix : option string
}.

(** The alternation [am?|pm?|st|nd|rd|th], tried in this order. *)
Definition matchSuffix (s : string) : option string :=
  if Js.startsWith s "am" then Some "am"
  else if Js.startsWith s "a" then Some "a"
  else if Js.startsWith s "pm" then Some "pm"
  else if Js.startsWith s "p" then Some "p"
  else if Js.startsWith s "st" then Some "st"
  else if Js.startsWith s "nd" then Some "nd"
  else if Js.startsWith s "rd" then Some "rd"
  else if Js.startsWith s "th" then Some "th"
  else None.

(** The optional minute group at the head of [s]. *)
Definition matchMinute (s : string) : option string * string :=
  match s with
  | String c s' =>
      if Ascii.eqb c ":" || Ascii.eqb c "."
      then let '(ds, rest) := Js.span Js.isDigit s' in (Some (String c ds), rest)
      else (None, s)
  | EmptyString => (None, s)
  end.

Definition groupLength (o : option string) : nat :=
  match o with
  | Some s => String.length s
  | None => O
  end.

(** The pattern tried at the head of [s]: the groups and the number of
    characters matched.  Every quantifier is greedy and everything after
    the first group is optional, so the first attempt of the backtracking
    matcher is the match. *)
Definition matchDigits (s : string) : option (DigitMatch * nat) :=
  let '(n, r1) := Js.span Js.isDigit s in
  if Js.isEmpty n then None
  else
    let '(m, r2) := matchMinute r1 in
    let '(ws, r3) := Js.span Js.isSpace r2 in
    let sf := matchSuffix r3 in
    Some (mkDigitMatch n m sf,
          (String.length n + groupLength m + String.length ws + groupLength sf)%nat).

(** The global scan of [input.replace(pattern, callback)]: the characters
    outside the matches, and the matches in order.  [skip] counts the
    characters of the current match still to pass. *)
Fixpoint scan (skip : nat) (s : string) : list (ascii + DigitMatch) :=
  match s with
  | EmptyString => []
  | String c s' =>
      match skip with
      | S k => scan k s'
      | O =>
          match matchDigits s with
          | Some (m, len) => inr m :: scan (Nat.pred len) s'
          | None => inl c :: scan O s'
          end
      end
  end.

Fixpoint matchesOf (parts : list (ascii + DigitMatch)) : list DigitMatch :=
  match parts with
  | [] => []
  | inl _ :: rest => matchesOf rest
  | inr m :: rest => m :: matchesOf rest
  end.

(** The string [replace] returns: the callback always answers [''] . *)
Fixpoint residue (parts : list (ascii + DigitMatch)) : string :=
  match parts with
  | [] => EmptyString
  | inl c :: rest => String c (residue rest)
  | inr _ :: rest => residue rest
  end.

(** What the callback does with one match. *)
Inductive Classified : Type :=
| ExplicitTime (t : string)
| AmbiguousDigit (n : Z)
| DayOfMonth (n : Z).

(** [suffix?.match(/^a|p/)]: an [a] at the start, or a [p] anywhere. *)
Definition matchesAorP (sf : option string) : bool :=
  match sf with
  | Some s => Js.startsWith s "a" || Js.contains "p" s
  | None => false
  end.

Definition suffixStartsWithA (sf : option string) : bool :=
  match sf with
  | Some s => Js.startsWith s "a"
  | None => false
  end.

(** Lines 29 to 32. *)
Definition padMinute (mn : string) : result string :=
  let mn := Js.replaceChar "." ":" mn in
  zeros ← Js.repeat "0" (3 - Js.length mn);
  mret (mn +:+ zeros).

(** The parameter default [min = ''], and the three tests of lines 28, 36
    and 38. *)
Definition minuteOf (m : DigitMatch) : string := default EmptyString (min m).

Definition isExplicitTime (m : DigitMatch) : bool :=
  negb (Js.isEmpty (minuteOf m)) || matchesAorP (suffix m).

Definition isAmbiguous (m : DigitMatch) : bool :=
  negb (isExplicitTime m) && negb (Js.truthyString (suffix m)).

Definition isOrdinal (m : DigitMatch) : bool :=
  negb (isExplicitTime m) && Js.truthyString (suffix m).

(** The callback, lines 27 to 41. *)
Definition onMatch (m : DigitMatch) : result Classified :=
  let mn := minuteOf m in
  if isExplicitTime m then
    mn' ← (if negb (Js.isEmpty mn) then padMinute mn else mret mn);
    let period := if suffixStartsWithA (suffix m) then "am" else "pm" in
    mret (ExplicitTime (num m +:+ mn' +:+ " " +:+ period))
  else if negb (Js.truthyString (suffix m)) then
    mret (AmbiguousDigit (Js.parseInt (num m)))
  else
    mret (DayOfMonth (Js.parseInt (num m))).

(** The three variables the callback assigns. *)
Record Fields : Type := mkFields {
  time : option string;
  dayOfMonth : option Z;
  digits : list Z
}.

Definition noFields : Fields := mkFields None None [].

Definition assign (f : Fields) (c : Classified) : Fields :=
  match c with
  | ExplicitTime t => mkFields (Some t) (dayOfMonth f) (digits f)
  | AmbiguousDigit n => mkFields (time f) (dayOfMonth f) (digits f ++ [n])
  | DayOfMonth n => mkFields (time f) (Some n) (digits f)
  end.

(** The callback run on every match in order; it stops at the first
    exception. *)
Fixpoint classifyAll (ms : list DigitMatch) : result (list Classified) :=
  match ms with
  | [] => mret []
  | m :: rest =>
      c ← onMatch m;
      cs ← classifyAll rest;
      mret (c :: cs)
  end.

(** [word.replace(/\s+at?/, '')]: the pattern at the head of [s]. *)
Definition matchAtHere (s : string) : option string :=
  let '(ws, r) := Js.span Js.isSpace s in
  if Js.isEmpty ws then None
  else if Js.startsWith r "at" then Some (Js.drop 2 r)
  else if Js.startsWith r "a" then Some (Js.drop 1 r)
  else None.

Fixpoint removeAt (s : string) : string :=
  match matchAtHere s with
  | Some rest => rest
  | None =>
      match s with
      | EmptyString => EmptyString
      | String c s' => String c (removeAt s')
      end
  end.

Definition normalize (input : string) : string := Js.toLowerCase (Js.trim input).

(** The residual word: line 27 to 45, the callback's effects apart. *)
Definition residualWord (input : string) : string :=
  removeAt (Js.trim (residue (scan O (normalize input)))).

(** The matches of the pattern in a string, as [matchAll] lists them. *)
Definition digitMatches (s : string) : list DigitMatch := matchesOf (scan O s).

Definition classify (input : string) : result Fields :=
  cs ← classifyAll (digitMatches (normalize input));
  mret (foldl assign noFields cs).

Definition tokenize (input : string) : result (Fields * string) :=
  f ← classify input;
  mret (f, residualWord input).

(** ** The calendar engine: the operations of Sugar's [Date] the file calls

    Each operation is here what Sugar's returns when it returns: a phrase
    that cannot be read gives the invalid date.  When an operation raises
    instead is the matter of [EngineExceptions], further down. *)

Class CalendarEngine : Type := {
  (** A [Date] object; it may be the invalid date. *)
  Date : Type;
  (** [Date.create(phrase)], read against the clock. *)
  create : Date -> string -> Date;
  (** [d.isValid()]; the file never calls it, the statements below do. *)
  isValid : Date -> bool;
  (** [d.isPast()], [d.isFuture()], [d.isToday()], read against the clock. *)
  isPast : Date -> Date -> bool;
  isFuture : Date -> Date -> bool;
  isToday : Date -> Date -> bool;
  (** [d.addHours(n)], [d.addDays(n)]: the date after the update. *)
  addHours : Date -> Z -> Date;
  addDays : Date -> Z -> Date;
  (** [d.getHours()], [d.getMinutes()]; [NaN] is [None]. *)
  getHours : Date -> option Z;
  getMinutes : Date -> option Z;
  (** [d.format(pattern)] *)
  format : Date -> string -> string
}.

(** ** The formatting helpers and [guessTime]: lines 133 to 147 *)

Definition guessTime (n : option Z) : string :=
  if negb (Js.truthyNumber n) then "8 am"
  else
    let n := default 0 n in
    if 12 <? n then pretty (n - 12) +:+ " pm"
    else if n <? 8 then pretty n +:+ " pm"
    else pretty n +:+ " am".

Definition concisePattern (minutes : option Z) : string :=
  if Js.truthyNumber minutes then "{h}:{mm} {tt}" else "{h} {tt}".

Definition printConciseTime `{CalendarEngine} (d : Date) : string :=
  format d (concisePattern (getMinutes d)).

Definition printPrecise `{CalendarEngine} (d : Date) : string :=
  let t := concisePattern (getMinutes d) in
  format d ("{Dow}, {Mon} {d} at " +:+ t).

(** ** [suggest]: lines 17 to 131 *)

Record TimeSuggestion `{CalendarEngine} : Type := mkSuggestion {
  natural : string;
  precise : option string;
  date : Date
}.

(** [{natural: n, date: d}] *)
Definition suggestion `{CalendarEngine} (n : string) (d : Date) : TimeSuggestion :=
  mkSuggestion _ n None d.

Definition setPrecise `{CalendarEngine} (ts : TimeSuggestion) : TimeSuggestion :=
  mkSuggestion _ (natural ts) (Some (printPrecise (date ts))) (date ts).

(** [a || b] on a string that may be [undefined]. *)
Definition orString (a : option string) (b : string) : string :=
  if Js.truthyString a then default EmptyString a else b.

(** [n == k], [n < k] on a number that may be [undefined]. *)
Definition numberIs (n : option Z) (k : Z) : bool :=
  match n with
  | Some v => v =? k
  | None => false
  end.

Definition numberBelow (n : option Z) (k : Z) : bool :=
  match n with
  | Some v => v <? k
  | None => false
  end.

(** [i.replace(/s$/, '')] *)
Fixpoint stripFinalS (s : string) : string :=
  match s with
  | EmptyString => EmptyString
  | String c EmptyString => if Ascii.eqb c "s" then EmptyString else s
  | String c s' => String c (stripFinalS s')
  end.

(** [word.match(/\bnext\b/)]: [prev] is the character before [s]. *)
Definition wordCharBefore (prev : option ascii) : bool :=
  match prev with
  | Some c => Js.isWordChar c
  | None => false
  end.

Definition wordCharAt (s : string) : bool :=
  match s with
  | String c _ => Js.isWordChar c
  | EmptyString => false
  end.

Fixpoint matchesNextFrom (prev : option ascii) (s : string) : bool :=
  match s with
  | EmptyString => false
  | String c s' =>
      negb (wordCharBefore prev) && Js.startsWith s "next" && negb (wordCharAt (Js.drop 4 s))
      || matchesNextFrom (Some c) s'
  end.

Definition matchesNext (word : string) : bool := matchesNextFrom None word.

(** [word.replace(/\s*next\s*/, '')]: the pattern at the head of [s], then
    the leftmost place where it matches. *)
Definition matchNextHere (s : string) : option string :=
  let r := Js.trimStart s in
  if Js.startsWith r "next" then Some (Js.trimStart (Js.drop 4 r)) else None.

Fixpoint removeNext (s : string) : string :=
  match matchNextHere s with
  | Some rest => rest
  | None =>
      match s with
      | EmptyString => EmptyString
      | String c s' => String c (removeNext s')
      end
  end.

Definition intervalNames : list string :=
  ["minutes"; "hours"; "days"; "weeks"; "months"; "years"].

Definition weekdayNames : list string :=
  ["monday"; "tuesday"; "wednesday"; "thursday"; "friday"; "saturday"; "sunday"].

Definition monthNames : list string :=
  ["january"; "february"; "march"; "april"; "may"; "june"; "july"; "august";
   "september"; "october"; "november"; "december"].

Section Rules.

Context `{E : CalendarEngine}.
Variable now : Date.
Variable f : Fields.
Variable word : string.

Definition digit0 : option Z := digits f !! 0%nat.
Definition digit1 : option Z := digits f !! 1%nat.

Definition plural (n : option Z) : string :=
  if negb (numberIs n 1) then "s" else "".

(** Lines 57 to 60. *)
Definition bareQuantityFires : bool :=
  Js.isEmpty word && Js.truthyNumber digit0 && negb (Js.truthyString (time f)).

Definition bareQuantity : list TimeSuggestion :=
  if bareQuantityFires then
    [ suggestion ("for " +:+ Js.showNumber digit0 +:+ " hour" +:+ plural digit0)
                 (create now ("in " +:+ Js.showNumber digit0 +:+ " hours"));
      suggestion ("for " +:+ Js.showNumber digit0 +:+ " day" +:+ plural digit0)
                 (create now ("in " +:+ Js.showNumber digit0 +:+ " days")) ]
  else [].

(** Lines 63 to 68. *)
Definition bareTimeFires : bool :=
  Js.isEmpty word
  && (Js.truthyString (time f) || Js.truthyNumber digit0 && numberBelow digit0 24).

Definition rollPast (d : Date) : Date :=
  if isPast now d then addHours d 24 else d.

Definition bareTime : list TimeSuggestion :=
  if bareTimeFires then
    let t := orString (time f) (guessTime digit0) in
    let d := rollPast (create now t) in
    [ suggestion ((if isToday now d then "today" else "tomorrow") +:+ ", "
                  +:+ printConciseTime d) d ]
  else [].

(** Lines 71 to 77. *)
Definition intervalMatches : list string :=
  List.filter (fun i => (0 <? Z.of_nat (length (digits f)))
                        && negb (Js.isEmpty word) && Js.startsWith i word)
              intervalNames.

Definition intervalSuggestion (i : string) : TimeSuggestion :=
  let d := create now ("in " +:+ Js.showNumber digit0 +:+ " " +:+ i) in
  let i := if numberIs digit0 1 then stripFinalS i else i in
  suggestion ("for " +:+ Js.showNumber digit0 +:+ " " +:+ i) d.

Definition intervalRule : list TimeSuggestion := map intervalSuggestion intervalMatches.

(** Lines 80 to 89. *)
Definition hasNext : bool := matchesNext word.
Definition withoutNext : string := removeNext word.

Definition weekdayMatches : list string :=
  List.filter (fun d => negb (Js.isEmpty withoutNext) && Js.startsWith d withoutNext)
              weekdayNames.

Definition weekdayPhrase (d : string) : string :=
  (if hasNext then "next " else "") +:+ " " +:+ d +:+ " "
  +:+ orString (time f) (guessTime digit0).

Definition rollWeek (d : Date) : Date :=
  if isPast now d && isToday now d then addDays d 7 else d.

Definition weekdaySuggestion (d : string) : TimeSuggestion :=
  let dt := rollWeek (create now (weekdayPhrase d)) in
  suggestion ((if hasNext then "next" else "on") +:+ " "
              +:+ format dt "{Weekday} at {h} {tt}") dt.

Definition weekdayRule : list TimeSuggestion := map weekdaySuggestion weekdayMatches.

(** Lines 92 to 99. *)
Definition monthMatches : list string :=
  List.filter (fun m => negb (Js.isEmpty word) && Js.startsWith m word) monthNames.

Definition monthDay : string :=
  if Js.truthyNumber (dayOfMonth f) then Js.showNumber (dayOfMonth f)
  else if Js.truthyNumber digit0 then Js.showNumber digit0
  else "1".

Definition monthSuggestion (m : string) : TimeSuggestion :=
  let t := orString (time f) (guessTime digit1) in
  let d := create now (m +:+ " " +:+ monthDay +:+ " " +:+ t) in
  let naturalTime :=
    if Js.truthyString (time f) || Js.truthyNumber digit1
    then " at " +:+ printConciseTime d else "" in
  suggestion (format d "{Month} {do}" +:+ naturalTime) d.

Definition monthRule : list TimeSuggestion := map monthSuggestion monthMatches.

(** Lines 103 to 112. *)
Definition todayFires : bool :=
  negb (Js.isEmpty word) && (Js.startsWith "today" word || Js.startsWith "tdy" word).

Definition todayRule : list TimeSuggestion :=
  if todayFires then
    let t := orString (time f) (guessTime digit0) in
    let d := create now ("today " +:+ t) in
    if isFuture now d then
      [ suggestion ("today at " +:+ printConciseTime d) d ]
    else if isPast now d && numberBelow (getHours d) 12 && negb (Js.truthyString (time f))
    then
      let d := addHours d 12 in
      [ suggestion ("today at " +:+ printConciseTime d) d ]
    else []
  else [].

(** Lines 114 to 118. *)
Definition tomorrowFires : bool :=
  Js.startsWith "tomorrow" word || Js.startsWith "tmrw" word.

Definition tomorrowSuggestion : TimeSuggestion :=
  let t := orString (time f) (guessTime digit0) in
  let d := create now ("tomorrow " +:+ t) in
  suggestion ("tomorrow at " +:+ printConciseTime d) d.

Definition tomorrowRule : list TimeSuggestion :=
  if tomorrowFires then [ tomorrowSuggestion ] else [].

(** Lines 120 to 124. *)
Definition tonightFires : bool :=
  negb (Js.isEmpty word) && (Js.startsWith "tonight" word || Js.startsWith "tnight" word).

Definition tonightRule : list TimeSuggestion :=
  if tonightFires then
    let t := orString (time f)
               (if Js.truthyNumber digit0 then guessTime digit0 else "6 pm") in
    let d := create now ("today " +:+ t) in
    [ suggestion ("tonight at " +:+ printConciseTime d) d ]
  else [].

(** The list [res] when the last rule has run. *)
Definition candidates : list TimeSuggestion :=
  bareQuantity ++ bareTime ++ intervalRule ++ weekdayRule ++ monthRule
  ++ todayRule ++ tomorrowRule ++ tonightRule.

End Rules.

(** The whole function; lines 126 to 128 are the final [map]. *)
Definition suggest `{CalendarEngine} (now : Date) (input : string)
  : result (list TimeSuggestion) :=
  '(f, word) ← tokenize input;
  mret (map setPrecise (candidates now f word)).

(** ** Vocabulary of the statements *)

(** The fields after the callback has run on [ms]: the explicit time is the
    one of the last run that passes the test of line 28, the day of the
    month the one of the last run that reaches line 39. *)
Definition lastWins (ms : list DigitMatch) (f : Fields) : Prop :=
  match last (List.filter isExplicitTime ms) with
  | Some m => exists t, onMatch m = Ok (ExplicitTime t) /\ time f = Some t
  | None => time f = None
  end
  /\ match last (List.filter isOrdinal ms) with
     | Some m => dayOfMonth f = Some (Js.parseInt (num m))
     | None => dayOfMonth f = None
     end.

(** Section 7 of the specification read on one input: no suggestion of the
    list carries a date the engine could not resolve. *)
Definition skipsUnparsed `{CalendarEngine} (now : Date) (input : string) : Prop :=
  forall (res : list TimeSuggestion) (ts : TimeSuggestion),
    suggest now input = Ok res -> In ts res -> isValid (date ts) = true.

(** The labels of a result, none when [suggest] raised. *)
Definition labels `{CalendarEngine} (r : result (list TimeSuggestion)) : list string :=
  match r with
  | Ok res => map natural res
  | Throw _ => []
  end.

(** The head of [s], if any, fails [p]. *)
Definition stopsAt (p : ascii -> bool) (s : string) : Prop :=
  match s with
  | EmptyString => True
  | String c _ => p c = false
  end.

(** The groups of a match as the specification words them: a minute
    component, a suffix that starts with [a] or [p], an ordinal suffix. *)
Definition hasMinute (m : DigitMatch) : bool :=
  match min m with
  | Some _ => true
  | None => false
  end.

Definition suffixIn (names : list string) (m : DigitMatch) : bool :=
  match suffix m with
  | Some s => existsb (String.eqb s) names
  | None => false
  end.

Definition meridiemSuffix : DigitMatch -> bool := suffixIn ["am"; "a"; "pm"; "p"].
Definition ordinalSuffix : DigitMatch -> bool := suffixIn ["st"; "nd"; "rd"; "th"].

(** ** A calendar engine to run the rules on

    A small instance of [CalendarEngine]: an instant is a number of minutes
    since 1970-01-01 00:00 local time, the invalid date is [None].  It reads
    the fragment of phrases the examples below send: a clock time, [today]
    or [tomorrow] and a time, a weekday name and a time with or without
    [next], and [in N minutes|hours|days|weeks]; any other phrase is the
    invalid date.  Like Sugar without its [future] option, a weekday name is
    the day of that name in the current week, weeks starting on Sunday. *)

Module Calendar.

Definition minutesPerDay : Z := 1440.

Definition dayOf (t : Z) : Z := t / minutesPerDay.
Definition minuteOfDay (t : Z) : Z := t mod minutesPerDay.

(** Sunday is 0; 1970-01-01 was a Thursday. *)
Definition weekdayOf (t : Z) : Z := (dayOf t + 4) mod 7.

(** Year, month (1 to 12) and day of the month of a day number, in the
    proleptic Gregorian calendar. *)
Definition civil (day : Z) : Z * Z * Z :=
  let z := day + 719468 in
  let era := z / 146097 in
  let doe := z - era * 146097 in
  let yoe := (doe - doe / 1460 + doe / 36524 - doe / 146096) / 365 in
  let doy := doe - (365 * yoe + yoe / 4 - yoe / 100) in
  let mp := (5 * doy + 2) / 153 in
  let d := doy - (153 * mp + 2) / 5 + 1 in
  let m := if mp <? 10 then mp + 3 else mp - 9 in
  (yoe + era * 400 + (if m <=? 2 then 1 else 0), m, d).

Definition weekdayLabels : list string :=
  ["Sunday"; "Monday"; "Tuesday"; "Wednesday"; "Thursday"; "Friday"; "Saturday"].

Definition monthLabels : list string :=
  ["January"; "February"; "March"; "April"; "May"; "June"; "July"; "August";
   "September"; "October"; "November"; "December"].

Definition nthLabel (labels : list string) (i : Z) : string :=
  default "" (labels !! Z.to_nat i).

Definition abbreviate (s : string) : string := String.substring 0 3 s.

Definition ordinal (d : Z) : string :=
  pretty d +:+
  (if (d mod 100 =? 11) || (d mod 100 =? 12) || (d mod 100 =? 13) then "th"
   else if d mod 10 =? 1 then "st"
   else if d mod 10 =? 2 then "nd"
   else if d mod 10 =? 3 then "rd"
   else "th").

Definition twoDigits (n : Z) : string :=
  if n <? 10 then "0" +:+ pretty n else pretty n.

(** One [{token}] of a format pattern. *)
Definition field (t : Z) (token : string) : string :=
  let '(_, m, d) := civil (dayOf t) in
  let h := minuteOfDay t / 60 in
  if String.eqb token "Weekday" then nthLabel weekdayLabels (weekdayOf t)
  else if String.eqb token "Dow" then abbreviate (nthLabel weekdayLabels (weekdayOf t))
  else if String.eqb token "Month" then nthLabel monthLabels (m - 1)
  else if String.eqb token "Mon" then abbreviate (nthLabel monthLabels (m - 1))
  else if String.eqb token "d" then pretty d
  else if String.eqb token "do" then ordinal d
  else if String.eqb token "h" then pretty (if h mod 12 =? 0 then 12 else h mod 12)
  else if String.eqb token "mm" then twoDigits (minuteOfDay t mod 60)
  else if String.eqb token "tt" then (if h <? 12 then "am" else "pm")
  else "{" +:+ token +:+ "}".

(** [token] is the text read since an open brace, if any. *)
Fixpoint formatFrom (t : Z) (token : option string) (pattern : string) : string :=
  match pattern with
  | EmptyString =>
      match token with
      | Some tok => "{" +:+ tok
      | None => EmptyString
      end
  | String c rest =>
      match token with
      | None =>
          if Ascii.eqb c "{" then formatFrom t (Some EmptyString) rest
          else String c (formatFrom t None rest)
      | Some tok =>
          if Ascii.eqb c "}" then field t tok +:+ formatFrom t None rest
          else formatFrom t (Some (tok +:+ String c EmptyString)) rest
      end
  end.

(** ["h"] or ["h:mm"] with [am] or [pm], as minutes after midnight. *)
Definition clock (hm meridiem : string) : option Z :=
  let '(h, rest) := Js.span Js.isDigit hm in
  let hour := Js.parseInt h in
  minute ← (match rest with
            | EmptyString => Some 0
            | String c mm =>
                if Ascii.eqb c ":" && Js.allDigits mm && (String.length mm =? 2)%nat
                   && (Js.parseInt mm <? 60)
                then Some (Js.parseInt mm) else None
            end);
  offset ← (if String.eqb meridiem "am" then Some 0
            else if String.eqb meridiem "pm" then Some 12 else None);
  if Js.allDigits h && (1 <=? hour) && (hour <=? 12)
  then Some ((hour mod 12 + offset) * 60 + minute) else None.

Definition weekdayIndex (name : string) : option Z :=
  Z.of_nat <$> (fst <$> list_find (fun l => Js.toLowerCase l = name) weekdayLabels).

Definition unitMinutes (unit : string) : option Z :=
  if String.eqb unit "minutes" then Some 1
  else if String.eqb unit "hours" then Some 60
  else if String.eqb unit "days" then Some minutesPerDay
  else if String.eqb unit "weeks" then Some (7 * minutesPerDay)
  else None.

Definition midnight (t : Z) : Z := dayOf t * minutesPerDay.

Definition atDay (t : Z) (days : Z) (hm meridiem : string) : option Z :=
  m ← clock hm meridiem;
  Some (midnight t + days * minutesPerDay + m).

Definition parse (t : Z) (phrase : string) : option Z :=
  match String.words phrase with
  | [hm; meridiem] => atDay t 0 hm meridiem
  | [w; hm; meridiem] =>
      if String.eqb w "today" then atDay t 0 hm meridiem
      else if String.eqb w "tomorrow" then atDay t 1 hm meridiem
      else if String.eqb w "in" then
        k ← unitMinutes meridiem;
        if Js.allDigits hm then Some (t + Js.parseInt hm * k) else None
      else
        i ← weekdayIndex w;
        atDay t (i - weekdayOf t) hm meridiem
  | [nx; w; hm; meridiem] =>
      if String.eqb nx "next" then
        i ← weekdayIndex w;
        atDay t (i - weekdayOf t + 7) hm meridiem
      else None
  | _ => None
  end.

Definition before (a b : option Z) : bool :=
  match a, b with
  | Some x, Some y => x <? y
  | _, _ => false
  end.

Definition sameDay (a b : option Z) : bool :=
  match a, b with
  | Some x, Some y => dayOf x =? dayOf y
  | _, _ => false
  end.

#[global] Instance engine : CalendarEngine := {|
  Date := option Z;
  create now phrase := t ← now; parse t phrase;
  isValid d := bool_decide (is_Some d);
  isPast now d := before d now;
  isFuture now d := before now d;
  isToday now d := sameDay d now;
  addHours d n := (fun t => t + 60 * n) <$> d;
  addDays d n := (fun t => t + minutesPerDay * n) <$> d;
  getHours d := (fun t => minuteOfDay t / 60) <$> d;
  getMinutes d := (fun t => minuteOfDay t mod 60) <$> d;
  format d pattern :=
    match d with
    | Some t => formatFrom t None pattern
    | None => "Invalid Date"
    end
|}.

(** Wednesday 2024-01-10, at 10:00 and at 16:00. *)
Definition wednesdayMorning : @Date engine := Some (19732 * minutesPerDay + 600).
Definition wednesdayAfternoon : @Date engine := Some (19732 * minutesPerDay + 960).

End Calendar.

(** ** Engine operations that raise

    [CalendarEngine] gives what each operation returns when it returns.
    Whether an operation of Sugar raises instead (its [format] does on an
    invalid date in some releases) is not in the source; [EngineExceptions]
    says when each does.  The source has no [try]: an exception raised by
    the engine ends the call of [suggest] there.  [getHours] and
    [getMinutes] are the built-in getters, which answer [NaN] and never
    raise. *)

Class EngineExceptions `{CalendarEngine} : Type := {
  Exception : Type;
  createRaises : Date -> string -> option Exception;
  isPastRaises : Date -> Date -> option Exception;
  isFutureRaises : Date -> Date -> option Exception;
  isTodayRaises : Date -> Date -> option Exception;
  addHoursRaises : Date -> Z -> option Exception;
  addDaysRaises : Date -> Z -> option Exception;
  formatRaises : Date -> string -> option Exception
}.

(** No operation of the engine ever raises. *)
Definition quiet `{EngineExceptions} : Prop :=
  (forall now p, createRaises now p = None)
  /\ (forall now d, isPastRaises now d = None)
  /\ (forall now d, isFutureRaises now d = None)
  /\ (forall now d, isTodayRaises now d = None)
  /\ (forall d n, addHoursRaises d n = None)
  /\ (forall d n, addDaysRaises d n = None)
  /\ (forall d p, formatRaises d p = None).

(** What ended a call: line 31, or the engine. *)
Inductive Thrown (X : Type) : Type :=
| ByTokenizer (e : JsError)
| ByEngine (x : X).

Arguments ByTokenizer {X} e.
Arguments ByEngine {X} x.

Inductive run (X A : Type) : Type :=
| Returned (a : A)
| Raised (t : Thrown X).

Arguments Returned {X A} a.
Arguments Raised {X A} t.

#[global] Instance run_ret {X : Type} : MRet (run X) := fun A a => Returned a.
#[global] Instance run_bind {X : Type} : MBind (run X) := fun A B k r =>
  match r with
  | Returned a => k a
  | Raised t => Raised t
  end.

(** A [for ... of] loop that pushes one element for each item. *)
Fixpoint forEach {X A B : Type} (g : A -> run X B) (l : list A) : run X (list B) :=
  match l with
  | [] => mret []
  | a :: rest =>
      b ← g a;
      bs ← forEach g rest;
      mret (b :: bs)
  end.

(** [suggest] again, line by line, with the engine calls in the order the
    source makes them and each one able to raise. *)
Module Raising.

Section Rules.

Context `{E : CalendarEngine} {X : EngineExceptions}.
Variable now : Date.
Variable f : Fields.
Variable word : string.

Definition call {A : Type} (raises : option Exception) (value : A) : run Exception A :=
  match raises with
  | Some x => Raised (ByEngine x)
  | None => Returned value
  end.

Definition create' (phrase : string) : run Exception Date :=
  call (createRaises now phrase) (create now phrase).
Definition isPast' (d : Date) : run Exception bool :=
  call (isPastRaises now d) (isPast now d).
Definition isFuture' (d : Date) : run Exception bool :=
  call (isFutureRaises now d) (isFuture now d).
Definition isToday' (d : Date) : run Exception bool :=
  call (isTodayRaises now d) (isToday now d).
Definition addHours' (d : Date) (n : Z) : run Exception Date :=
  call (addHoursRaises d n) (addHours d n).
Definition addDays' (d : Date) (n : Z) : run Exception Date :=
  call (addDaysRaises d n) (addDays d n).
Definition format' (d : Date) (pattern : string) : run Exception string :=
  call (formatRaises d pattern) (format d pattern).

Definition printConciseTime (d : Date) : run Exception string :=
  format' d (concisePattern (getMinutes d)).

Definition printPrecise (d : Date) : run Exception string :=
  format' d ("{Dow}, {Mon} {d} at " +:+ concisePattern (getMinutes d)).

(** Lines 57 to 60. *)
Definition bareQuantity : run Exception (list TimeSuggestion) :=
  if bareQuantityFires f word then
    h ← create' ("in " +:+ Js.showNumber (digit0 f) +:+ " hours");
    d ← create' ("in " +:+ Js.showNumber (digit0 f) +:+ " days");
    Returned [ suggestion ("for " +:+ Js.showNumber (digit0 f) +:+ " hour" +:+ plural (digit0 f)) h;
           suggestion ("for " +:+ Js.showNumber (digit0 f) +:+ " day" +:+ plural (digit0 f)) d ]
  else Returned [].

(** Lines 63 to 68. *)
Definition bareTime : run Exception (list TimeSuggestion) :=
  if bareTimeFires f word then
    d ← create' (orString (time f) (guessTime (digit0 f)));
    past ← isPast' d;
    d ← (if (past : bool) then addHours' d 24 else Returned d);
    today ← isToday' d;
    t ← printConciseTime d;
    Returned [ suggestion ((if (today : bool) then "today" else "tomorrow") +:+ ", " +:+ t) d ]
  else Returned [].

(** Lines 71 to 77. *)
Definition intervalSuggestion (i : string) : run Exception TimeSuggestion :=
  d ← create' ("in " +:+ Js.showNumber (digit0 f) +:+ " " +:+ i);
  let i := if numberIs (digit0 f) 1 then stripFinalS i else i in
  Returned (suggestion ("for " +:+ Js.showNumber (digit0 f) +:+ " " +:+ i) d).

Definition intervalRule : run Exception (list TimeSuggestion) :=
  forEach intervalSuggestion (intervalMatches f word).

(** Lines 80 to 89; [isToday] is asked only of a past instant. *)
Definition weekdaySuggestion (d : string) : run Exception TimeSuggestion :=
  dt ← create' (weekdayPhrase f word d);
  past ← isPast' dt;
  roll ← (if (past : bool) then isToday' dt else Returned false);
  dt ← (if (roll : bool) then addDays' dt 7 else Returned dt);
  l ← format' dt "{Weekday} at {h} {tt}";
  Returned (suggestion ((if hasNext word then "next" else "on") +:+ " " +:+ l) dt).

Definition weekdayRule : run Exception (list TimeSuggestion) :=
  forEach weekdaySuggestion (weekdayMatches word).

(** Lines 92 to 99; the time of the label is formatted before the day. *)
Definition monthSuggestion (m : string) : run Exception TimeSuggestion :=
  d ← create' (m +:+ " " +:+ monthDay f +:+ " "
               +:+ orString (time f) (guessTime (digit1 f)));
  naturalTime ← (if Js.truthyString (time f) || Js.truthyNumber (digit1 f)
                 then t ← printConciseTime d; Returned (" at " +:+ t)
                 else Returned EmptyString);
  l ← format' d "{Month} {do}";
  Returned (suggestion (l +:+ naturalTime) d).

Definition monthRule : run Exception (list TimeSuggestion) :=
  forEach monthSuggestion (monthMatches word).

(** Lines 103 to 112. *)
Definition todayRule : run Exception (list TimeSuggestion) :=
  if todayFires word then
    d ← create' ("today " +:+ orString (time f) (guessTime (digit0 f)));
    future ← isFuture' d;
    if (future : bool) then
      t ← printConciseTime d;
      Returned [ suggestion ("today at " +:+ t) d ]
    else
      past ← isPast' d;
      if (past : bool) && numberBelow (getHours d) 12 && negb (Js.truthyString (time f)) then
        d ← addHours' d 12;
        t ← printConciseTime d;
        Returned [ suggestion ("today at " +:+ t) d ]
      else Returned []
  else Returned [].

(** Lines 114 to 118. *)
Definition tomorrowRule : run Exception (list TimeSuggestion) :=
  if tomorrowFires word then
    d ← create' ("tomorrow " +:+ orString (time f) (guessTime (digit0 f)));
    t ← printConciseTime d;
    Returned [ suggestion ("tomorrow at " +:+ t) d ]
  else Returned [].

(** Lines 120 to 124. *)
Definition tonightRule : run Exception (list TimeSuggestion) :=
  if tonightFires word then
    d ← create' ("today " +:+ orString (time f)
                   (if Js.truthyNumber (digit0 f) then guessTime (digit0 f) else "6 pm"));
    t ← printConciseTime d;
    Returned [ suggestion ("tonight at " +:+ t) d ]
  else Returned [].

Definition candidates : run Exception (list TimeSuggestion) :=
  r1 ← bareQuantity;
  r2 ← bareTime;
  r3 ← intervalRule;
  r4 ← weekdayRule;
  r5 ← monthRule;
  r6 ← todayRule;
  r7 ← tomorrowRule;
  r8 ← tonightRule;
  Returned (r1 ++ r2 ++ r3 ++ r4 ++ r5 ++ r6 ++ r7 ++ r8).

(** Lines 126 to 128. *)
Definition setPrecise (ts : TimeSuggestion) : run Exception TimeSuggestion :=
  p ← printPrecise (date ts);
  Returned (mkSuggestion _ (natural ts) (Some p) (date ts)).

End Rules.

Definition suggest `{E : CalendarEngine} {X : EngineExceptions} (now : Date)
    (input : string) : run Exception (list TimeSuggestion) :=
  match tokenize input with
  | Throw e => Raised (ByTokenizer e)
  | Ok (f, word) =>
      res ← candidates now f word;
      forEach setPrecise res
  end.

End Raising.

(** [suggest] seen as a run that the engine never ends. *)
Definition asRun {X A : Type} (r : result A) : run X A :=
  match r with
  | Ok a => Returned a
  | Throw e => Raised (ByTokenizer e)
  end.

(** The answers of [Calendar.engine] with two behaviours of the engine's
    exceptions: none at all, and a [format] that raises on the invalid
    date, as Sugar's does from its release 2 ("Date is not valid"). *)
Inductive CalendarError : Type :=
| DateIsNotValid.

Definition neverRaises `{CalendarEngine} : EngineExceptions := {|
  Exception := Empty_set;
  createRaises _ _ := None;
  isPastRaises _ _ := None;
  isFutureRaises _ _ := None;
  isTodayRaises _ _ := None;
  addHoursRaises _ _ := None;
  addDaysRaises _ _ := None;
  formatRaises _ _ := None
|}.

Definition strictFormat : @EngineExceptions Calendar.engine := {|
  Exception := CalendarError;
  createRaises _ _ := None;
  isPastRaises _ _ := None;
  isFutureRaises _ _ := None;
  isTodayRaises _ _ := None;
  addHoursRaises _ _ := None;
  addDaysRaises _ _ := None;
  formatRaises d _ := if isValid d then None else Some DateIsNotValid
|}.

(** No exception of a run comes from the tokenizer. *)
Definition engineOnly {X A : Type} (r : run X A) : Prop :=
  forall e : JsError, r <> Raised (ByTokenizer e).

(** * Properties *)

(** ** The scenarios of section 8, on the tokenizer *)

Example tokenize_tmrw_8am :
  tokenize "tmrw 8am" = Ok (mkFields (Some "8 am") None [], "tmrw").
Proof. reflexivity. Qed.

Example tokenize_march_3rd :
  tokenize "march 3rd" = Ok (mkFields None (Some 3) [], "march").
Proof. reflexivity. Qed.

Example tokenize_next_tue :
  tokenize "next tue" = Ok (noFields, "next tue")
  /\ matchesNext "next tue" = true /\ removeNext "next tue" = "tue".
Proof. repeat split. Qed.

Example tokenize_half_typed_minute :
  tokenize "12:3" = Ok (mkFields (Some "12:30 pm") None [], "").
Proof. reflexivity. Qed.

Example tokenize_strips_at :
  tokenize " Next TUE at 5 " = Ok (mkFields None None [5], "next tue").
Proof. reflexivity. Qed.

Example suggest_next_tue :
  labels (suggest Calendar.wednesdayMorning "next tue") = ["next Tuesday at 8 am"].
Proof. reflexivity. Qed.

Example suggest_t :
  labels (suggest Calendar.wednesdayMorning "t")
  = ["on Tuesday at 8 am"; "on Thursday at 8 am"; "today at 8 pm"; "tomorrow at 8 am";
     "tonight at 6 pm"].
Proof. reflexivity. Qed.

(** ** Strings and the scan *)

Section DigitFree.

Import Js.

Lemma span_rest_digitFree (p : ascii -> bool) (s : string) :
  digitFree s -> digitFree (snd (span p s)).
Proof.
  induction s as [|c s IH]; simpl; [easy|].
  intros [Hc Hs]. destruct (p c).
  - destruct (span p s) as [a b]. simpl in *. auto.
  - simpl. auto.
Qed.

Lemma drop_digitFree (n : nat) (s : string) : digitFree s -> digitFree (drop n s).
Proof.
  revert s. induction n as [|n IH]; intros [|c s]; simpl; try easy.
  intros [_ Hs]. auto.
Qed.

Lemma trimStart_digitFree (s : string) : digitFree s -> digitFree (trimStart s).
Proof.
  induction s as [|c s IH]; simpl; [easy|].
  intros [Hc Hs]. destruct (isSpace c); simpl; auto.
Qed.

Lemma trimEnd_digitFree (s : string) : digitFree s -> digitFree (trimEnd s).
Proof.
  induction s as [|c s IH]; simpl; [easy|].
  intros [Hc Hs]. specialize (IH Hs).
  destruct (trimEnd s) as [|c' r]; [destruct (isSpace c)|]; simpl in *; auto.
Qed.

Lemma trim_digitFree (s : string) : digitFree s -> digitFree (trim s).
Proof. intros Hs. apply trimEnd_digitFree, trimStart_digitFree, Hs. Qed.

End DigitFree.

(** The pattern matches at the head of a string exactly when the string
    starts with a digit. *)
Lemma matchDigits_None (c : ascii) (s : string) :
  matchDigits (String c s) = None <-> Js.isDigit c = false.
Proof.
  unfold matchDigits. simpl. destruct (Js.isDigit c) eqn:Hc.
  - destruct (Js.span Js.isDigit s) as [a b]. simpl.
    destruct (matchMinute b) as [m r2]. destruct (Js.span Js.isSpace r2) as [ws r3].
    split; discriminate.
  - simpl. tauto.
Qed.

(** Every character the scan leaves outside the matches is not a digit,
    wherever in a match the scan starts. *)
Lemma residue_scan_digitFree (s : string) (skip : nat) :
  Js.digitFree (residue (scan skip s)).
Proof.
  revert skip. induction s as [|c s IH]; intros skip; simpl; [exact I|].
  destruct skip as [|k]; [|apply IH].
  destruct (matchDigits (String c s)) as [[m len]|] eqn:Hm; simpl.
  - apply IH.
  - split; [now apply matchDigits_None in Hm | apply IH].
Qed.

Lemma matchAtHere_digitFree (s rest : string) :
  Js.digitFree s -> matchAtHere s = Some rest -> Js.digitFree rest.
Proof.
  unfold matchAtHere. intros Hs.
  pose proof (span_rest_digitFree Js.isSpace s Hs) as Hr.
  destruct (Js.span Js.isSpace s) as [ws r]. simpl in Hr.
  destruct (Js.isEmpty ws); [discriminate|].
  destruct (Js.startsWith r "at").
  { intros Heq. assert (rest = Js.drop 2 r) as -> by congruence.
    now apply drop_digitFree. }
  destruct (Js.startsWith r "a"); [|discriminate].
  intros Heq. assert (rest = Js.drop 1 r) as -> by congruence.
  now apply drop_digitFree.
Qed.

Lemma removeAt_digitFree (s : string) : Js.digitFree s -> Js.digitFree (removeAt s).
Proof.
  induction s as [|c s IH]; intros Hs.
  - exact I.
  - cbn [removeAt]. destruct (matchAtHere (String c s)) eqn:Hm.
    + eapply matchAtHere_digitFree; eauto.
    + destruct Hs as [Hc Hs]. split; auto.
Qed.

Lemma residualWord_digitFree (input : string) : Js.digitFree (residualWord input).
Proof.
  unfold residualWord. apply removeAt_digitFree, trim_digitFree, residue_scan_digitFree.
Qed.

(** A string without digits has no match of the pattern. *)
Lemma digitFree_no_match (s : string) : Js.digitFree s -> digitMatches s = [].
Proof.
  unfold digitMatches. induction s as [|c s IH]; [reflexivity|].
  intros [Hc Hs]. cbn [scan].
  destruct (matchDigits (String c s)) as [[m len]|] eqn:Hm.
  - apply (proj2 (matchDigits_None c s)) in Hc. congruence.
  - simpl. auto.
Qed.

(** C8. For every input string, the residual word the tokenizer produces
    holds no digit, and the digit pattern run again on that word has no
    match. *)
Theorem residual_word_has_no_digit_match (input : string) :
  Js.digitFree (residualWord input) /\ digitMatches (residualWord input) = [].
Proof.
  split; [apply residualWord_digitFree|].
  apply digitFree_no_match, residualWord_digitFree.
Qed.

(** ** The callback *)

Lemma replaceChar_length (a b : ascii) (s : string) :
  String.length (Js.replaceChar a b s) = String.length s.
Proof.
  induction s as [|c s IH]; simpl; [reflexivity|].
  destruct (Ascii.eqb c a); simpl; congruence.
Qed.

(** Line 31 raises exactly when the minute group is longer than three
    characters: a colon or dot and three digits or more. *)
Lemma padMinute_throws (mn : string) :
  padMinute mn = Throw RangeError <-> (3 < String.length mn)%nat.
Proof.
  unfold padMinute, Js.repeat, Js.length. rewrite replaceChar_length.
  destruct (3 - Z.of_nat (String.length mn) <? 0) eqn:Hlt; simpl.
  - apply Z.ltb_lt in Hlt. split; [lia|reflexivity].
  - apply Z.ltb_ge in Hlt. split; [discriminate|lia].
Qed.

Lemma onMatch_throws (m : DigitMatch) :
  onMatch m = Throw RangeError <-> (3 < String.length (minuteOf m))%nat.
Proof.
  unfold onMatch, isExplicitTime.
  destruct (minuteOf m) as [|c mn] eqn:Hmn; simpl.
  - split; [|lia]. destruct (matchesAorP (suffix m)); [discriminate|].
    destruct (Js.truthyString (suffix m)); discriminate.
  - rewrite <- (padMinute_throws (String c mn)).
    destruct (padMinute (String c mn)) as [p|[]]; simpl; [|tauto].
    split; discriminate.
Qed.

Lemma classifyAll_snoc (ms : list DigitMatch) (m : DigitMatch) (cs : list Classified) :
  classifyAll (ms ++ [m]) = Ok cs ->
  exists cs' c, classifyAll ms = Ok cs' /\ onMatch m = Ok c /\ cs = cs' ++ [c].
Proof.
  revert cs. induction ms as [|m0 ms IH]; intros cs; simpl.
  - destruct (onMatch m) as [c|e]; simpl; [|discriminate].
    intros [= <-]. exists [], c. auto.
  - destruct (onMatch m0) as [c0|e]; simpl; [|discriminate].
    destruct (classifyAll (ms ++ [m])) as [cs1|e] eqn:Hrest; simpl; [|discriminate].
    intros [= <-]. destruct (IH cs1 eq_refl) as (cs' & c & -> & Hc & ->).
    exists (c0 :: cs'), c. simpl. auto.
Qed.

(** The shape of what the callback returns, by the test that holds. *)
Lemma onMatch_explicit (m : DigitMatch) (c : Classified) :
  isExplicitTime m = true -> onMatch m = Ok c -> exists t, c = ExplicitTime t.
Proof.
  unfold onMatch. intros ->.
  destruct (if negb (Js.isEmpty (minuteOf m)) then padMinute (minuteOf m) else mret (minuteOf m))
    as [p|e]; simpl; [|discriminate].
  intros [= <-]. eauto.
Qed.

Lemma onMatch_ambiguous (m : DigitMatch) :
  isAmbiguous m = true -> onMatch m = Ok (AmbiguousDigit (Js.parseInt (num m))).
Proof.
  unfold isAmbiguous, onMatch. destruct (isExplicitTime m); [discriminate|]. simpl.
  now intros ->.
Qed.

Lemma onMatch_ordinal (m : DigitMatch) :
  isOrdinal m = true -> onMatch m = Ok (DayOfMonth (Js.parseInt (num m))).
Proof.
  unfold isOrdinal, onMatch. destruct (isExplicitTime m); [discriminate|]. simpl.
  now intros ->.
Qed.

Lemma tests_exclusive (m : DigitMatch) :
  (isExplicitTime m = true /\ isAmbiguous m = false /\ isOrdinal m = false)
  \/ (isExplicitTime m = false /\ isAmbiguous m = true /\ isOrdinal m = false)
  \/ (isExplicitTime m = false /\ isAmbiguous m = false /\ isOrdinal m = true).
Proof.
  unfold isAmbiguous, isOrdinal.
  destruct (isExplicitTime m), (Js.truthyString (suffix m)); simpl; auto.
Qed.

Lemma classifyAll_lastWins (ms : list DigitMatch) (cs : list Classified) :
  classifyAll ms = Ok cs -> lastWins ms (foldl assign noFields cs).
Proof.
  revert cs. induction ms as [|m ms IH] using rev_ind; intros cs Hcs.
  - simpl in Hcs. injection Hcs as <-. split; reflexivity.
  - apply classifyAll_snoc in Hcs as (cs' & c & Hcs' & Hc & ->).
    specialize (IH cs' Hcs'). destruct IH as [IHt IHd].
    rewrite foldl_app. simpl. unfold lastWins. rewrite !List.filter_app. simpl.
    destruct (tests_exclusive m) as [(He & Ha & Ho)|[(He & Ha & Ho)|(He & Ha & Ho)]];
      rewrite He, Ho.
    + destruct (onMatch_explicit m c He Hc) as [t ->].
      rewrite last_snoc, app_nil_r. simpl. split; [eauto|exact IHd].
    + rewrite (onMatch_ambiguous m Ha) in Hc. injection Hc as <-.
      rewrite !app_nil_r. simpl. split; [exact IHt|exact IHd].
    + rewrite (onMatch_ordinal m Ho) in Hc. injection Hc as <-.
      rewrite last_snoc, app_nil_r. simpl. split; [exact IHt|reflexivity].
Qed.

(** ** [guessTime] *)

(** C4. [guessTime] answers "8 am" on zero or no number, "<n-12> pm" above
    12, "<n> pm" below 8 and "<n> am" otherwise; in particular on 0, 15, 5
    and 10. *)
Theorem guessTime_cases :
  guessTime None = "8 am"
  /\ guessTime (Some 0) = "8 am"
  /\ (forall n : Z, 12 < n -> guessTime (Some n) = pretty (n - 12) +:+ " pm")
  /\ (forall n : Z, n <> 0 -> n < 8 -> guessTime (Some n) = pretty n +:+ " pm")
  /\ (forall n : Z, 8 <= n <= 12 -> guessTime (Some n) = pretty n +:+ " am")
  /\ guessTime (Some 15) = "3 pm"
  /\ guessTime (Some 5) = "5 pm"
  /\ guessTime (Some 10) = "10 am".
Proof.
  refine (conj eq_refl (conj eq_refl (conj _ (conj _ (conj _
            (conj eq_refl (conj eq_refl eq_refl))))))).
  - intros n Hn. unfold guessTime. simpl.
    destruct (Z.eqb_spec n 0) as [->|_]; [lia|]. simpl.
    destruct (Z.ltb_spec 12 n); [reflexivity|lia].
  - intros n Hz Hn. unfold guessTime. simpl.
    destruct (Z.eqb_spec n 0) as [->|_]; [lia|]. simpl.
    destruct (Z.ltb_spec 12 n); [lia|].
    destruct (Z.ltb_spec n 8); [reflexivity|lia].
  - intros n [Hlo Hhi]. unfold guessTime. simpl.
    destruct (Z.eqb_spec n 0) as [->|_]; [lia|]. simpl.
    destruct (Z.ltb_spec 12 n); [lia|].
    destruct (Z.ltb_spec n 8); [lia|reflexivity].
Qed.

Lemma guessTime_cases_witness :
  guessTime (Some 13) = "1 pm" /\ guessTime (Some 7) = "7 pm" /\ guessTime (Some 12) = "12 am".
Proof.
  destruct guessTime_cases as (_ & _ & Hhigh & Hlow & Hmid & _).
  split; [|split].
  - apply (Hhigh 13). lia.
  - apply (Hlow 7); lia.
  - apply (Hmid 12). lia.
Defined.

(** ** [suggest] and the tokenizer *)

Section SuggestShape.

Context `{E : CalendarEngine}.
Variable now : Date.

Lemma suggest_Ok (input : string) (f : Fields) (word : string) :
  tokenize input = Ok (f, word) ->
  suggest now input = Ok (map setPrecise (candidates now f word)).
Proof. unfold suggest. now intros ->. Qed.

Lemma suggest_inv (input : string) (res : list TimeSuggestion) :
  suggest now input = Ok res ->
  exists f word, tokenize input = Ok (f, word)
                 /\ res = map setPrecise (candidates now f word).
Proof.
  unfold suggest. destruct (tokenize input) as [[f word]|e]; simpl; [|discriminate].
  intros [= <-]. eauto.
Qed.

(** Whether [suggest] returns is decided by the tokenizer alone. *)
Lemma suggest_returns (input : string) :
  returns (suggest now input) <-> returns (tokenize input).
Proof.
  unfold returns. split.
  - intros [res Hres]. apply suggest_inv in Hres as (f & word & Htok & _). eauto.
  - intros [[f word] Htok]. rewrite (suggest_Ok _ _ _ Htok). eauto.
Qed.

(** With an empty word only the two bare rules and the tomorrow rule can
    contribute. *)
Lemma candidates_empty_word (f : Fields) :
  candidates now f "" = bareQuantity now f "" ++ bareTime now f "" ++ [tomorrowSuggestion now f].
Proof.
  unfold candidates, intervalRule, intervalMatches, weekdayRule, weekdayMatches,
    monthRule, monthMatches, todayRule, tonightRule, tomorrowRule.
  simpl. rewrite andb_false_r. reflexivity.
Qed.

End SuggestShape.

Lemma classifyAll_returns (ms : list DigitMatch) :
  returns (classifyAll ms) <-> Forall (fun m => (String.length (minuteOf m) <= 3)%nat) ms.
Proof.
  unfold returns. induction ms as [|m ms IH]; simpl.
  - split; [constructor|eauto].
  - pose proof (onMatch_throws m) as Hthrow.
    destruct (onMatch m) as [c|[]]; simpl.
    + rewrite Forall_cons, <- IH. split.
      * intros [cs Hcs]. split.
        -- destruct (Nat.le_gt_cases (String.length (minuteOf m)) 3) as [|Hgt]; [easy|].
           apply Hthrow in Hgt. discriminate.
        -- destruct (classifyAll ms); simpl in Hcs; [eauto|discriminate].
      * intros [_ [cs ->]]. simpl. eauto.
    + split.
      * intros [cs Hcs]. discriminate.
      * rewrite Forall_cons. intros [Hle _].
        assert (3 < String.length (minuteOf m))%nat by now apply Hthrow. lia.
Qed.

Lemma tokenize_returns (input : string) :
  returns (tokenize input)
  <-> Forall (fun m => (String.length (minuteOf m) <= 3)%nat) (digitMatches (normalize input)).
Proof.
  rewrite <- classifyAll_returns. unfold tokenize, classify, returns.
  destruct (classifyAll (digitMatches (normalize input))) as [cs|e]; simpl.
  - split; eauto.
  - split; intros [a Ha]; discriminate.
Qed.

(** C1. On the input "1:234" the minute group has four characters, line 31
    asks for a negative number of zeros and [suggest] raises a
    [RangeError], whatever the calendar engine: it is not total. *)
Theorem suggest_raises_on_long_minute `{E : CalendarEngine} (now : Date) :
  digitMatches (normalize "1:234") = [mkDigitMatch "1" (Some ":234") None]
  /\ padMinute ":234" = Throw RangeError
  /\ suggest now "1:234" = Throw RangeError
  /\ ~ returns (suggest now "1:234").
Proof.
  split; [reflexivity|]. split; [reflexivity|]. split; [reflexivity|].
  intros [res Hres]. discriminate.
Qed.

(** ** The final pass *)

(** C9. Every suggestion [suggest] returns, whichever rule made it, has its
    [precise] field set to the date formatted as weekday, month, day and
    concise time: the pattern "{Dow}, {Mon} {d} at " followed by "{h} {tt}"
    when the minutes are zero and by "{h}:{mm} {tt}" otherwise; where the
    engine formats the two parts of that pattern one after the other, the
    label ends with the concise time of [printConciseTime]. *)
Theorem precise_set_from_date `{E : CalendarEngine} (now : Date) (input : string)
    (res : list TimeSuggestion) (ts : TimeSuggestion) :
  suggest now input = Ok res ->
  In ts res ->
  precise ts = Some (printPrecise (date ts))
  /\ (getMinutes (date ts) = Some 0 ->
      printPrecise (date ts) = format (date ts) "{Dow}, {Mon} {d} at {h} {tt}")
  /\ (forall m : Z, getMinutes (date ts) = Some m -> m <> 0 ->
      printPrecise (date ts) = format (date ts) "{Dow}, {Mon} {d} at {h}:{mm} {tt}")
  /\ (format (date ts) ("{Dow}, {Mon} {d} at " +:+ concisePattern (getMinutes (date ts)))
        = format (date ts) "{Dow}, {Mon} {d} at "
          +:+ format (date ts) (concisePattern (getMinutes (date ts))) ->
      precise ts = Some (format (date ts) "{Dow}, {Mon} {d} at "
                         +:+ printConciseTime (date ts))).
Proof.
  intros Hres Hin. apply suggest_inv in Hres as (f & word & _ & ->).
  apply in_map_iff in Hin as (ts0 & <- & _). simpl.
  split; [reflexivity|]. unfold printPrecise, printConciseTime. split; [|split].
  - now intros ->.
  - intros m -> Hm. unfold concisePattern. simpl.
    destruct (Z.eqb_spec m 0); [contradiction|reflexivity].
  - now intros ->.
Qed.

Lemma precise_set_from_date_witness :
  let now := Calendar.wednesdayMorning in
  let ts := mkSuggestion Calendar.engine "on Friday at 4 pm" (Some "Fri, Jan 12 at 4:15 pm")
              (Some 28417935 : @Date Calendar.engine) in
  suggest now "4:15 fri" = Ok [ts]
  /\ precise ts = Some (printPrecise (date ts))
  /\ printPrecise (date ts) = format (date ts) "{Dow}, {Mon} {d} at {h}:{mm} {tt}"
  /\ precise ts = Some (format (date ts) "{Dow}, {Mon} {d} at "
                        +:+ printConciseTime (date ts)).
Proof.
  intros now ts.
  assert (Hres : suggest now "4:15 fri" = Ok [ts]) by reflexivity.
  destruct (precise_set_from_date now "4:15 fri" [ts] ts Hres (or_introl eq_refl))
    as (Hp & _ & Hmin & Hcat).
  split; [exact Hres|]. split; [exact Hp|]. split.
  - apply (Hmin 15); [reflexivity|lia].
  - apply Hcat. reflexivity.
Defined.

(** ** The empty word *)

(** C10. When the residual word is empty the tomorrow rule fires, its prefix
    test asking for no character, and "tomorrow at <time>" is in the list;
    the today and tonight rules ask for a non-empty word and give nothing.
    So [suggest] on the empty string returns a non-empty list. *)
Theorem empty_word_fires_tomorrow `{E : CalendarEngine} (now : Date) :
  (forall (input : string) (f : Fields),
     tokenize input = Ok (f, "") ->
     tomorrowFires "" = true
     /\ todayRule now f "" = [] /\ tonightRule now f "" = []
     /\ exists res d,
          suggest now input = Ok res
          /\ d = create now ("tomorrow " +:+ orString (time f) (guessTime (digit0 f)))
          /\ In (setPrecise (suggestion ("tomorrow at " +:+ printConciseTime d) d)) res)
  /\ exists res, suggest now "" = Ok res /\ res <> [].
Proof.
  split.
  - intros input f Htok. split; [reflexivity|]. split; [reflexivity|]. split; [reflexivity|].
    eexists _, _. split; [exact (suggest_Ok now _ _ _ Htok)|]. split; [reflexivity|].
    rewrite candidates_empty_word, !map_app. apply in_or_app. right.
    apply in_or_app. right. now left.
  - eexists. split; [reflexivity|]. discriminate.
Qed.

Lemma empty_word_fires_tomorrow_witness :
  let now := Calendar.wednesdayMorning in
  tokenize "5" = Ok (mkFields None None [5], "")
  /\ exists res,
       suggest now "5" = Ok res
       /\ In (mkSuggestion Calendar.engine "tomorrow at 5 pm" (Some "Thu, Jan 11 at 5 pm")
            (Some 28416540 : @Date Calendar.engine)) res.
Proof.
  intros now. split; [reflexivity|].
  destruct (proj1 (empty_word_fires_tomorrow now) "5" (mkFields None None [5]) eq_refl)
    as (_ & _ & _ & res & d & Hres & -> & Hin).
  exists res. split; [exact Hres|exact Hin].
Defined.

(** ** Inputs made of digits only *)

Section DigitRuns.

Import Js.

Lemma digit_not_space (c : ascii) : isDigit c = true -> isSpace c = false.
Proof. destruct c as [[] [] [] [] [] [] [] []]; try discriminate; reflexivity. Qed.

Lemma digit_lower (c : ascii) : isDigit c = true -> lowerChar c = c.
Proof. destruct c as [[] [] [] [] [] [] [] []]; try discriminate; reflexivity. Qed.

Lemma digit_no_suffix (c : ascii) (s : string) :
  isDigit c = true -> matchSuffix (String c s) = None.
Proof. destruct c as [[] [] [] [] [] [] [] []]; try discriminate; reflexivity. Qed.

Lemma digits_toLowerCase (s : string) :
  forallChars isDigit s = true -> toLowerCase s = s.
Proof.
  unfold forallChars. induction s as [|c s IH]; simpl; [reflexivity|].
  intros [Hc Hs]%andb_true_iff. now rewrite (digit_lower c Hc), IH.
Qed.

Lemma digits_trimEnd (s : string) :
  forallChars isDigit s = true -> trimEnd s = s.
Proof.
  unfold forallChars. induction s as [|c s IH]; simpl; [reflexivity|].
  intros [Hc Hs]%andb_true_iff. rewrite (IH Hs), (digit_not_space c Hc).
  now destruct s.
Qed.

Lemma digits_trim (s : string) : forallChars isDigit s = true -> trim s = s.
Proof.
  intros Hs. unfold trim. destruct s as [|c s]; [reflexivity|].
  assert (Hc : isDigit c = true).
  { unfold forallChars in Hs. simpl in Hs. now apply andb_true_iff in Hs. }
  cbn [trimStart]. rewrite (digit_not_space c Hc). now apply digits_trimEnd.
Qed.

Lemma digits_span (s : string) :
  forallChars isDigit s = true -> span isDigit s = (s, EmptyString).
Proof.
  unfold forallChars. induction s as [|c s IH]; simpl; [reflexivity|].
  intros [Hc Hs]%andb_true_iff. now rewrite Hc, (IH Hs).
Qed.

End DigitRuns.

Lemma scan_skip_all (s : string) (skip : nat) :
  (String.length s <= skip)%nat -> scan skip s = [].
Proof.
  revert skip. induction s as [|c s IH]; intros skip; simpl; [reflexivity|].
  destruct skip as [|k]; [lia|]. intros Hle. apply IH. lia.
Qed.

(** A run of digits is one match, with no minute group and no suffix. *)
Lemma scan_digits (ds : string) :
  Js.allDigits ds = true -> scan O ds = [inr (mkDigitMatch ds None None)].
Proof.
  unfold Js.allDigits. destruct ds as [|c s]; [discriminate|]. simpl. intros Hds.
  cbn [scan]. unfold matchDigits. rewrite (digits_span _ Hds). simpl.
  rewrite Nat.add_0_r, scan_skip_all by lia. reflexivity.
Qed.

Lemma tokenize_digits (ds : string) :
  Js.allDigits ds = true ->
  tokenize ds = Ok (mkFields None None [Js.parseInt ds], "").
Proof.
  intros Hds. unfold tokenize, classify, residualWord, digitMatches, normalize.
  assert (Hall : Js.forallChars Js.isDigit ds = true).
  { unfold Js.allDigits in Hds. now apply andb_true_iff in Hds. }
  rewrite (digits_trim _ Hall), (digits_toLowerCase _ Hall), (scan_digits _ Hds).
  reflexivity.
Qed.

(** ** The bare rules *)

(** X14. For every input made of digits only whose value is not zero (and
    below 2^53, where [parseInt] and the printing of the number are exact),
    the list is: "for N hour(s)" and "for N day(s)" of the bare-quantity
    rule, one same-day or next-day time of the bare-time rule when N is
    below 24, and the tomorrow rule's suggestion. *)
Theorem bare_digits_fire_when_nonzero `{E : CalendarEngine} (now : Date) (ds : string) :
  Js.allDigits ds = true ->
  Js.parseInt ds <> 0 ->
  Js.parseInt ds < 2 ^ 53 ->
  let n := Js.parseInt ds in
  let s := if n =? 1 then "" else "s" in
  let t := rollPast now (create now (guessTime (Some n))) in
  let tomorrow := create now ("tomorrow " +:+ guessTime (Some n)) in
  suggest now ds =
  Ok (map setPrecise
        ([ suggestion ("for " +:+ pretty n +:+ " hour" +:+ s)
                      (create now ("in " +:+ pretty n +:+ " hours"));
           suggestion ("for " +:+ pretty n +:+ " day" +:+ s)
                      (create now ("in " +:+ pretty n +:+ " days")) ]
         ++ (if n <? 24
             then [ suggestion ((if isToday now t then "today" else "tomorrow") +:+ ", "
                                +:+ printConciseTime t) t ]
             else [])
         ++ [ suggestion ("tomorrow at " +:+ printConciseTime tomorrow) tomorrow ])).
Proof.
  intros Hds Hn _ n s t tomorrow.
  rewrite (suggest_Ok now ds _ _ (tokenize_digits ds Hds)), candidates_empty_word.
  unfold bareQuantity, bareQuantityFires, bareTime, bareTimeFires, tomorrowSuggestion,
    plural, digit0, orString.
  simpl. fold n. destruct (Z.eqb_spec n 0) as [Hz|_]; [contradiction|]. simpl.
  subst s. destruct (n =? 1), (n <? 24); reflexivity.
Qed.

Lemma bare_digits_fire_when_nonzero_witness :
  labels (suggest Calendar.wednesdayMorning "5")
  = ["for 5 hours"; "for 5 days"; "today, 5 pm"; "tomorrow at 5 pm"].
Proof.
  rewrite (bare_digits_fire_when_nonzero Calendar.wednesdayMorning "5" eq_refl);
    [reflexivity| |reflexivity].
  vm_compute. discriminate.
Defined.

(** C3, as the specification has it, fails: no minute group was matched in
    "3pm", line 31 does not run and the explicit time is "3 pm". *)
Lemma three_pm_is_not_padded :
  tokenize "3pm" = Ok (mkFields (Some "3 pm") None [], "")
  /\ ~ (exists f word, tokenize "3pm" = Ok (f, word) /\ time f = Some "300 pm").
Proof.
  split; [reflexivity|]. intros (f & word & Htok & Htime).
  vm_compute in Htok. injection Htok as <- <-. discriminate.
Qed.

(** C3, as the code has it. On "3pm" the word is empty and the explicit time
    is "3 pm"; the list is the bare-time suggestion and the tomorrow rule's.
    The bare-time suggestion is "today, 3 pm" when the engine reads "3 pm" as
    an instant of today that is not past, and "tomorrow, 3 pm", a day later,
    when that instant is past. *)
Theorem three_pm_today_or_tomorrow `{E : CalendarEngine} (now : Date) :
  tokenize "3pm" = Ok (mkFields (Some "3 pm") None [], "")
  /\ let d := create now "3 pm" in
     let next := create now "tomorrow 3 pm" in
     let last := suggestion ("tomorrow at " +:+ printConciseTime next) next in
     (isPast now d = false -> isToday now d = true -> printConciseTime d = "3 pm" ->
      suggest now "3pm" = Ok (map setPrecise [suggestion "today, 3 pm" d; last]))
     /\ (isPast now d = true -> isToday now (addHours d 24) = false ->
         printConciseTime (addHours d 24) = "3 pm" ->
         suggest now "3pm"
         = Ok (map setPrecise [suggestion "tomorrow, 3 pm" (addHours d 24); last])).
Proof.
  split; [reflexivity|]. intros d next last.
  assert (Hs : suggest now "3pm" = Ok (map setPrecise (candidates now (mkFields (Some "3 pm") None []) "")))
    by reflexivity.
  rewrite Hs, candidates_empty_word.
  unfold bareQuantity, bareQuantityFires, bareTime, bareTimeFires, rollPast, orString.
  simpl.
  fold d. split.
  - intros Hpast Htoday Hlabel. now rewrite Hpast, Htoday, Hlabel.
  - intros Hpast Htoday Hlabel. now rewrite Hpast, Htoday, Hlabel.
Qed.

Lemma three_pm_today_or_tomorrow_witness :
  labels (suggest Calendar.wednesdayMorning "3pm") = ["today, 3 pm"; "tomorrow at 3 pm"]
  /\ labels (suggest Calendar.wednesdayAfternoon "3pm")
     = ["tomorrow, 3 pm"; "tomorrow at 3 pm"].
Proof.
  split.
  - rewrite (proj1 (proj2 (three_pm_today_or_tomorrow Calendar.wednesdayMorning))
               eq_refl eq_refl eq_refl).
    reflexivity.
  - rewrite (proj2 (proj2 (three_pm_today_or_tomorrow Calendar.wednesdayAfternoon))
               eq_refl eq_refl eq_refl).
    reflexivity.
Defined.

(** ** The weekday rule *)

Section WeekdayRule.

Context `{E : CalendarEngine}.
Variable now : Date.
Variable f : Fields.
Variable word : string.

(** Line 87 moves the instant only when it is both past and today. *)
Lemma weekdaySuggestion_rolled (d : string) :
  let r := create now (weekdayPhrase f word d) in
  isPast now r = true -> isToday now r = true ->
  date (weekdaySuggestion now f word d) = addDays r 7.
Proof. intros r Hp Ht. unfold weekdaySuggestion, rollWeek. fold r. now rewrite Hp, Ht. Qed.

(** An instant the engine resolved to an earlier day is kept as it is, in
    the past. *)
Lemma weekdaySuggestion_kept_past (d : string) :
  let r := create now (weekdayPhrase f word d) in
  isPast now r = true -> isToday now r = false ->
  date (weekdaySuggestion now f word d) = r
  /\ isPast now (date (weekdaySuggestion now f word d)) = true.
Proof.
  intros r Hp Ht. unfold weekdaySuggestion, rollWeek. fold r.
  rewrite Hp, Ht. simpl. auto.
Qed.

End WeekdayRule.

(** C5, on the code. On a Wednesday at 10:00 the input "mon" makes the
    weekday rule send " monday 8 am"; an engine that names the Monday of the
    current week answers an instant two days back, which is past and not
    today, so line 87 leaves it and the one suggestion of the list lies in
    the past. *)
Theorem weekday_rule_emits_past_instant :
  let now := Calendar.wednesdayMorning in
  exists ts : TimeSuggestion,
    suggest now "mon" = Ok [ts]
    /\ natural ts = "on Monday at 8 am"
    /\ date ts = create now " monday 8 am"
    /\ isPast now (date ts) = true
    /\ isToday now (date ts) = false.
Proof.
  intros now.
  destruct (weekdaySuggestion_kept_past now noFields "mon" "monday" eq_refl eq_refl)
    as [Hdate Hpast].
  exists (setPrecise (weekdaySuggestion now noFields "mon" "monday")).
  split; [reflexivity|]. split; [reflexivity|]. split; [exact Hdate|].
  split; [exact Hpast|reflexivity].
Qed.

(** * Further properties of the tokenizer *)

Lemma minutes_short_or_long (ms : list DigitMatch) :
  Forall (fun m => (String.length (minuteOf m) <= 3)%nat) ms
  \/ Exists (fun m => (3 < String.length (minuteOf m))%nat) ms.
Proof.
  induction ms as [|m ms [IH|IH]].
  - left. constructor.
  - destruct (le_lt_dec (String.length (minuteOf m)) 3) as [Hle|Hlt].
    + left. now constructor.
    + right. now apply Exists_cons_hd.
  - right. now apply Exists_cons_tl.
Qed.

Lemma minutes_short_not_long (ms : list DigitMatch) :
  Forall (fun m => (String.length (minuteOf m) <= 3)%nat) ms ->
  Exists (fun m => (3 < String.length (minuteOf m))%nat) ms -> False.
Proof.
  rewrite Forall_forall, Exists_exists. intros Hall (m & Hin & Hlt).
  specialize (Hall m Hin). lia.
Qed.

Lemma parseDigits_nonnegative (s : string) (acc : Z) :
  0 <= acc -> 0 <= Js.parseDigits acc s.
Proof.
  revert acc. induction s as [|c s IH]; intros acc Hacc; simpl; [exact Hacc|].
  destruct (Js.isDigit c) eqn:Hc; [|exact Hacc].
  apply IH. unfold Js.digitValue. unfold Js.isDigit in Hc.
  apply andb_true_iff in Hc as [Hlo _]. apply N.leb_le in Hlo. lia.
Qed.

Lemma parseInt_nonnegative (s : string) : 0 <= Js.parseInt s.
Proof. apply parseDigits_nonnegative. lia. Qed.

(** The list [digits] after the callback has run on [ms]. *)
Lemma classifyAll_digits (ms : list DigitMatch) (cs : list Classified) :
  classifyAll ms = Ok cs ->
  digits (foldl assign noFields cs)
  = map (fun m => Js.parseInt (num m)) (List.filter isAmbiguous ms).
Proof.
  revert cs. induction ms as [|m ms IH] using rev_ind; intros cs Hcs.
  - simpl in Hcs. injection Hcs as <-. reflexivity.
  - apply classifyAll_snoc in Hcs as (cs' & c & Hcs' & Hc & ->).
    specialize (IH cs' Hcs'). rewrite foldl_app, List.filter_app, map_app. simpl.
    destruct (tests_exclusive m) as [(He & Ha & Ho)|[(He & Ha & Ho)|(He & Ha & Ho)]];
      rewrite Ha.
    + destruct (onMatch_explicit m c He Hc) as [t ->]. simpl. now rewrite app_nil_r.
    + rewrite (onMatch_ambiguous m Ha) in Hc. injection Hc as <-. simpl. now rewrite IH.
    + rewrite (onMatch_ordinal m Ho) in Hc. injection Hc as <-. simpl. now rewrite app_nil_r.
Qed.

(** X2. The ambiguous digits are the values of the runs that carry neither
    a minute group nor a suffix, in the order the runs stand in the input;
    the runs classified as a time or as a day of the month leave no trace
    in the list. *)
Theorem ambiguous_digits_in_input_order (input : string) (f : Fields) :
  classify input = Ok f ->
  digits f = map (fun m => Js.parseInt (num m))
                 (List.filter isAmbiguous (digitMatches (normalize input))).
Proof.
  intros Hf. unfold classify in Hf.
  destruct (classifyAll (digitMatches (normalize input))) as [cs|e] eqn:Hcs;
    simpl in Hf; [|discriminate].
  injection Hf as <-. exact (classifyAll_digits _ _ Hcs).
Qed.

Lemma ambiguous_digits_in_input_order_witness :
  classify "7 3pm 2nd 9 4" = Ok (mkFields (Some "3 pm") (Some 2) [7; 9; 4])
  /\ [7; 9; 4] = map (fun m => Js.parseInt (num m))
                     (List.filter isAmbiguous (digitMatches (normalize "7 3pm 2nd 9 4"))).
Proof.
  split; [reflexivity|].
  exact (ambiguous_digits_in_input_order "7 3pm 2nd 9 4"
           (mkFields (Some "3 pm") (Some 2) [7; 9; 4]) eq_refl).
Defined.

(** X3. No number the tokenizer hands to the rules is negative: every
    ambiguous digit and the day of the month are at least zero (a minus
    sign is never part of a digit run). *)
Theorem classified_numbers_nonnegative (input : string) (f : Fields) :
  classify input = Ok f ->
  Forall (fun n => 0 <= n) (digits f)
  /\ (forall d : Z, dayOfMonth f = Some d -> 0 <= d).
Proof.
  intros Hf. unfold classify in Hf.
  destruct (classifyAll (digitMatches (normalize input))) as [cs|e] eqn:Hcs;
    simpl in Hf; [|discriminate].
  injection Hf as <-. split.
  - rewrite (classifyAll_digits _ _ Hcs). apply List.Forall_forall.
    intros n (m & <- & _)%in_map_iff. apply parseInt_nonnegative.
  - intros d Hd. destruct (classifyAll_lastWins _ _ Hcs) as [_ Hday].
    destruct (last (List.filter isOrdinal (digitMatches (normalize input)))) as [m|].
    + rewrite Hday in Hd. injection Hd as <-. apply parseInt_nonnegative.
    + congruence.
Qed.

Lemma classified_numbers_nonnegative_witness :
  classify "-5 march -3rd" = Ok (mkFields None (Some 3) [5])
  /\ Forall (fun n => 0 <= n) [5]
  /\ (forall d : Z, Some 3 = Some d -> 0 <= d).
Proof.
  split; [reflexivity|].
  exact (classified_numbers_nonnegative "-5 march -3rd" (mkFields None (Some 3) [5]) eq_refl).
Defined.

(** ** Case and outer white space *)

Section Normalize.

Import Js.

Lemma lowerChar_space (c : ascii) : isSpace (lowerChar c) = isSpace c.
Proof. destruct c as [[] [] [] [] [] [] [] []]; reflexivity. Qed.

Lemma lowerChar_idempotent (c : ascii) : lowerChar (lowerChar c) = lowerChar c.
Proof. destruct c as [[] [] [] [] [] [] [] []]; reflexivity. Qed.

Lemma toLowerCase_idempotent (s : string) : toLowerCase (toLowerCase s) = toLowerCase s.
Proof.
  induction s as [|c s IH]; simpl; [reflexivity|].
  now rewrite lowerChar_idempotent, IH.
Qed.

Lemma trimStart_toLowerCase (s : string) :
  trimStart (toLowerCase s) = toLowerCase (trimStart s).
Proof.
  induction s as [|c s IH]; simpl; [reflexivity|].
  rewrite lowerChar_space. destruct (isSpace c); [exact IH|reflexivity].
Qed.

Lemma trimEnd_toLowerCase (s : string) :
  trimEnd (toLowerCase s) = toLowerCase (trimEnd s).
Proof.
  induction s as [|c s IH]; simpl; [reflexivity|].
  rewrite IH, lowerChar_space.
  destruct (trimEnd s) as [|c' r]; simpl; [destruct (isSpace c)|]; reflexivity.
Qed.

Lemma trim_toLowerCase (s : string) : trim (toLowerCase s) = toLowerCase (trim s).
Proof. unfold trim. now rewrite trimStart_toLowerCase, trimEnd_toLowerCase. Qed.

Lemma trimStart_idempotent (s : string) : trimStart (trimStart s) = trimStart s.
Proof.
  induction s as [|c s IH]; simpl; [reflexivity|].
  destruct (isSpace c) eqn:Hc; [exact IH|]. simpl. now rewrite Hc.
Qed.

Lemma trimEnd_cons (c : ascii) (s : string) :
  trimEnd (String c s)
  = match trimEnd s with
    | EmptyString => if isSpace c then EmptyString else String c EmptyString
    | r => String c r
    end.
Proof. reflexivity. Qed.

Lemma trimEnd_idempotent (s : string) : trimEnd (trimEnd s) = trimEnd s.
Proof.
  induction s as [|c s IH]; [reflexivity|].
  rewrite (trimEnd_cons c s). destruct (trimEnd s) as [|c' r] eqn:Hr.
  - destruct (isSpace c) eqn:Hc; [reflexivity|]. simpl. now rewrite Hc.
  - rewrite trimEnd_cons, IH. reflexivity.
Qed.

(** [trimEnd] keeps a first character that is not white space. *)
Lemma trimEnd_keeps_head (c : ascii) (s : string) :
  isSpace c = false -> exists r, trimEnd (String c s) = String c r.
Proof.
  intros Hc. simpl. destruct (trimEnd s) as [|c' r]; [rewrite Hc|]; eauto.
Qed.

Lemma trimStart_trim (s : string) : trimStart (trim s) = trim s.
Proof.
  unfold trim. induction s as [|c s IH]; [reflexivity|].
  cbn [trimStart]. destruct (isSpace c) eqn:Hc; [exact IH|].
  destruct (trimEnd_keeps_head c s Hc) as [r ->]. simpl. now rewrite Hc.
Qed.

Lemma trim_idempotent (s : string) : trim (trim s) = trim s.
Proof.
  unfold trim at 1. rewrite trimStart_trim. unfold trim. apply trimEnd_idempotent.
Qed.

Lemma trimStart_spaces (s : string) : forallChars isSpace s = true -> trimStart s = EmptyString.
Proof.
  unfold forallChars. induction s as [|c s IH]; simpl; [reflexivity|].
  intros [Hc Hs]%andb_true_iff. rewrite Hc. auto.
Qed.

End Normalize.

Lemma normalize_toLowerCase (input : string) :
  normalize (Js.toLowerCase input) = normalize input.
Proof. unfold normalize. now rewrite trim_toLowerCase, toLowerCase_idempotent. Qed.

Lemma normalize_trim (input : string) : normalize (Js.trim input) = normalize input.
Proof. unfold normalize. now rewrite trim_idempotent. Qed.

(** The tokenizer sees its input through [normalize] only. *)
Lemma tokenize_normalize (a b : string) :
  normalize a = normalize b -> tokenize a = tokenize b.
Proof. unfold tokenize, classify, residualWord. now intros ->. Qed.

(** X4. [suggest] does not tell apart two inputs that differ in the case of
    their letters or in white space at either end: lower-casing or trimming
    the input beforehand changes nothing, exceptions included. *)
Theorem suggest_ignores_case_and_outer_space `{E : CalendarEngine} (now : Date)
    (input : string) :
  suggest now (Js.toLowerCase input) = suggest now input
  /\ suggest now (Js.trim input) = suggest now input
  /\ (forall other : string,
        Js.toLowerCase (Js.trim other) = Js.toLowerCase (Js.trim input) ->
        suggest now other = suggest now input).
Proof.
  assert (Hnorm : forall a b, normalize a = normalize b -> suggest now a = suggest now b).
  { intros a b Hab. unfold suggest. now rewrite (tokenize_normalize a b Hab). }
  split; [apply Hnorm, normalize_toLowerCase|].
  split; [apply Hnorm, normalize_trim|].
  intros other Hother. apply Hnorm. exact Hother.
Qed.

Lemma suggest_ignores_case_and_outer_space_witness :
  labels (suggest Calendar.wednesdayMorning "  Next TUE ")
  = labels (suggest Calendar.wednesdayMorning "next tue").
Proof.
  rewrite (proj2 (proj2 (suggest_ignores_case_and_outer_space
                           Calendar.wednesdayMorning "next tue")) "  Next TUE " eq_refl).
  reflexivity.
Defined.

(** X5. An input of white space only is the empty input: [suggest] returns
    the one suggestion of the tomorrow rule, at the default "8 am". *)
Theorem blank_input_suggests_tomorrow `{E : CalendarEngine} (now : Date)
    (input : string) :
  Js.forallChars Js.isSpace input = true ->
  let d := create now "tomorrow 8 am" in
  suggest now input
  = Ok [setPrecise (suggestion ("tomorrow at " +:+ printConciseTime d) d)].
Proof.
  intros Hsp d.
  assert (Hn : normalize input = normalize "").
  { unfold normalize, Js.trim. now rewrite (trimStart_spaces _ Hsp). }
  unfold suggest. rewrite (tokenize_normalize input "" Hn). reflexivity.
Qed.

Lemma blank_input_suggests_tomorrow_witness :
  labels (suggest Calendar.wednesdayMorning "   ") = ["tomorrow at 8 am"].
Proof.
  rewrite (blank_input_suggests_tomorrow Calendar.wednesdayMorning "   " eq_refl).
  reflexivity.
Defined.

(** ** The shape of a match *)

Section MatchShape.

Import Js.

Lemma length_append (a b : string) :
  String.length (a +:+ b) = (String.length a + String.length b)%nat.
Proof. induction a as [|c a IH]; simpl; [reflexivity|]. now rewrite IH. Qed.

Lemma forallChars_cons (p : ascii -> bool) (c : ascii) (s : string) :
  forallChars p (String c s) = p c && forallChars p s.
Proof. reflexivity. Qed.

Lemma forallChars_append (p : ascii -> bool) (a b : string) :
  forallChars p (a +:+ b) = forallChars p a && forallChars p b.
Proof.
  induction a as [|c a IH]; [reflexivity|].
  change (String c a +:+ b) with (String c (a +:+ b)).
  now rewrite !forallChars_cons, IH, andb_assoc.
Qed.

Lemma span_prefix_forall (p : ascii -> bool) (s : string) :
  forallChars p (fst (span p s)) = true.
Proof.
  induction s as [|c s IH]; simpl; [reflexivity|].
  destruct (p c) eqn:Hc; [|reflexivity].
  destruct (span p s) as [a b]. simpl in *. now rewrite forallChars_cons, Hc, IH.
Qed.

Lemma span_append (p : ascii -> bool) (a b : string) :
  forallChars p a = true -> stopsAt p b -> span p (a +:+ b) = (a, b).
Proof.
  intros Ha Hb. induction a as [|c a IH]; simpl.
  - destruct b as [|x b]; [reflexivity|]. simpl in Hb. simpl. now rewrite Hb.
  - rewrite forallChars_cons in Ha. apply andb_true_iff in Ha as [Hc Ha].
    now rewrite Hc, (IH Ha).
Qed.

Lemma digit_not_dot (c : ascii) : isDigit c = true -> Ascii.eqb c "." = false.
Proof. destruct c as [[] [] [] [] [] [] [] []]; try discriminate; reflexivity. Qed.

Lemma space_not_separator (c : ascii) :
  isSpace c = true -> Ascii.eqb c ":" || Ascii.eqb c "." = false.
Proof. destruct c as [[] [] [] [] [] [] [] []]; try discriminate; reflexivity. Qed.

Lemma digits_replace_dot (ds : string) :
  forallChars isDigit ds = true -> replaceChar "." ":" ds = ds.
Proof.
  induction ds as [|c ds IH]; [reflexivity|].
  rewrite forallChars_cons. intros [Hc Hds]%andb_true_iff. simpl.
  now rewrite (digit_not_dot c Hc), (IH Hds).
Qed.

Lemma copies_zero_length (n : nat) : String.length (copies n "0") = n.
Proof.
  induction n as [|n IH]; [reflexivity|].
  change (copies (S n) "0") with (String "0" (copies n "0")). simpl. now rewrite IH.
Qed.

Lemma copies_zero_digits (n : nat) : forallChars isDigit (copies n "0") = true.
Proof.
  induction n as [|n IH]; [reflexivity|].
  change (copies (S n) "0") with (String "0" (copies n "0")).
  rewrite forallChars_cons. exact IH.
Qed.

End MatchShape.

Lemma matchMinute_shape (r mn : string) :
  fst (matchMinute r) = Some mn ->
  exists c ds, mn = String c ds /\ (c = ":" \/ c = ".")%char
               /\ Js.forallChars Js.isDigit ds = true.
Proof.
  unfold matchMinute. destruct r as [|c r]; [discriminate|].
  destruct (Ascii.eqb c ":" || Ascii.eqb c ".") eqn:Hc; [|discriminate].
  pose proof (span_prefix_forall Js.isDigit r) as Hds.
  destruct (Js.span Js.isDigit r) as [ds rest]. simpl in *. intros [= <-].
  exists c, ds. split; [reflexivity|]. split; [|exact Hds].
  apply orb_true_iff in Hc as [Hc|Hc]; apply Ascii.eqb_eq in Hc; auto.
Qed.

Lemma matchDigits_min (s : string) (m : DigitMatch) (len : nat) :
  matchDigits s = Some (m, len) ->
  min m = fst (matchMinute (snd (Js.span Js.isDigit s))).
Proof.
  unfold matchDigits. destruct (Js.span Js.isDigit s) as [n r1]. simpl.
  destruct (Js.isEmpty n); [discriminate|].
  destruct (matchMinute r1) as [mm r2]. destruct (Js.span Js.isSpace r2) as [ws r3].
  intros [= <- _]. reflexivity.
Qed.

(** Lines 30 and 31 on a well-formed minute group. *)
Lemma padMinute_shape (c : ascii) (ds p : string) :
  (c = ":" \/ c = ".")%char -> Js.forallChars Js.isDigit ds = true ->
  padMinute (String c ds) = Ok p ->
  (String.length ds <= 2)%nat
  /\ p = String ":" (ds +:+ Js.copies (2 - String.length ds) "0").
Proof.
  intros Hc Hds. unfold padMinute.
  assert (Hrep : Js.replaceChar "." ":" (String c ds) = String ":" ds).
  { destruct Hc as [->| ->]; simpl; [|reflexivity]. now rewrite digits_replace_dot. }
  rewrite Hrep. unfold Js.repeat, Js.length. simpl String.length.
  destruct (3 - Z.of_nat (S (String.length ds)) <? 0) eqn:Hlt; simpl; [discriminate|].
  apply Z.ltb_ge in Hlt. intros [= <-]. split; [lia|].
  replace (Z.to_nat (3 - Z.of_nat (S (String.length ds))))
    with (2 - String.length ds)%nat by lia.
  reflexivity.
Qed.

(** X6. Whenever the callback accepts a captured minute group, what it
    stores is a colon and exactly two digits: a typed dot has become a
    colon and the missing digits are zeros ("12.3" gives ":30", "12:"
    gives ":00"). *)
Theorem minute_group_normalized (s : string) (m : DigitMatch) (len : nat)
    (mn p : string) :
  matchDigits s = Some (m, len) -> min m = Some mn -> padMinute mn = Ok p ->
  exists dd, p = String ":" dd /\ String.length dd = 2%nat
             /\ Js.forallChars Js.isDigit dd = true.
Proof.
  intros Hm Hmin Hpad. rewrite (matchDigits_min _ _ _ Hm) in Hmin.
  apply matchMinute_shape in Hmin as (c & ds & -> & Hc & Hds).
  destruct (padMinute_shape c ds p Hc Hds Hpad) as [Hlen ->].
  exists (ds +:+ Js.copies (2 - String.length ds) "0").
  split; [reflexivity|]. split.
  - rewrite length_append, copies_zero_length. lia.
  - now rewrite forallChars_append, Hds, copies_zero_digits.
Qed.

Lemma minute_group_normalized_witness :
  matchDigits "12.3 pm" = Some (mkDigitMatch "12" (Some ".3") (Some "pm"), 7%nat)
  /\ padMinute ".3" = Ok ":30"
  /\ exists dd, ":30" = String ":" dd /\ String.length dd = 2%nat
                /\ Js.forallChars Js.isDigit dd = true.
Proof.
  split; [reflexivity|]. split; [reflexivity|].
  exact (minute_group_normalized "12.3 pm" (mkDigitMatch "12" (Some ".3") (Some "pm"))
           7%nat ".3" ":30" eq_refl eq_refl eq_refl).
Defined.

Lemma space_not_digit (c : ascii) : Js.isSpace c = true -> Js.isDigit c = false.
Proof.
  intros Hc. destruct (Js.isDigit c) eqn:Hd; [|reflexivity].
  rewrite (digit_not_space c Hd) in Hc. discriminate.
Qed.

(** X7. A run of digits followed by any white space and then by a word that
    begins with "a" or "p" (but not "am" or "pm") is read as a clock time:
    the match takes the letter as its suffix, and the callback records
    "<digits> am" or "<digits> pm".  So in "5 april" the match is "5 a" and
    the word left is "pril". *)
Theorem digit_run_takes_meridiem_letter (ds ws rest : string) (c : ascii) :
  Js.allDigits ds = true ->
  Js.forallChars Js.isSpace ws = true ->
  (c = "a" \/ c = "p")%char ->
  Js.startsWith rest "m" = false ->
  matchDigits (ds +:+ ws +:+ String c rest)
  = Some (mkDigitMatch ds None (Some (String c EmptyString)),
          (String.length ds + String.length ws + 1)%nat)
  /\ onMatch (mkDigitMatch ds None (Some (String c EmptyString)))
     = Ok (ExplicitTime (ds +:+ " " +:+ String c "m")).
Proof.
  intros Hds Hws Hc Hrest. unfold Js.allDigits in Hds.
  apply andb_true_iff in Hds as [Hne Hall].
  assert (Hcs : Js.isSpace c = false) by (destruct Hc as [->| ->]; reflexivity).
  assert (Hstop : stopsAt Js.isDigit (ws +:+ String c rest)).
  { destruct ws as [|x ws]; simpl.
    - destruct Hc as [->| ->]; reflexivity.
    - rewrite forallChars_cons in Hws. apply andb_true_iff in Hws as [Hx _].
      now apply space_not_digit. }
  assert (Hmin : matchMinute (ws +:+ String c rest) = (None, ws +:+ String c rest)).
  { destruct ws as [|x ws]; simpl.
    - destruct Hc as [->| ->]; reflexivity.
    - rewrite forallChars_cons in Hws. apply andb_true_iff in Hws as [Hx _].
      now rewrite (space_not_separator x Hx). }
  assert (Hsuffix : matchSuffix (String c rest) = Some (String c EmptyString)).
  { unfold matchSuffix. destruct rest as [|r rest]; [destruct Hc as [->| ->]; reflexivity|].
    destruct Hc as [->| ->]; simpl in *; now rewrite Hrest. }
  split.
  - unfold matchDigits. rewrite (span_append _ _ _ Hall Hstop).
    destruct (Js.isEmpty ds); [discriminate|].
    rewrite Hmin, (span_append Js.isSpace ws (String c rest) Hws Hcs), Hsuffix.
    simpl. now rewrite Nat.add_0_r.
  - destruct Hc as [->| ->]; reflexivity.
Qed.

Lemma digit_run_takes_meridiem_letter_witness :
  tokenize "5 april" = Ok (mkFields (Some "5 am") None [], "pril")
  /\ matchDigits "5 april" = Some (mkDigitMatch "5" None (Some "a"), 3%nat)
  /\ onMatch (mkDigitMatch "5" None (Some "a")) = Ok (ExplicitTime "5 am").
Proof.
  split; [reflexivity|].
  exact (digit_run_takes_meridiem_letter "5" " " "pril" "a" eq_refl eq_refl
           (or_introl eq_refl) eq_refl).
Defined.

(** * Further properties of the rules *)

(** X8. On every hour from 1 to 24 [guessTime] names an hour from 1 to 12
    and a meridiem; the meridiem is "am" exactly for 8 to 12, so a bare 12
    is read as "12 am" and a bare 24 as "12 pm". *)
Theorem guessTime_hour_and_meridiem (n : Z) :
  1 <= n <= 24 ->
  exists (h : Z) (meridiem : string),
    guessTime (Some n) = pretty h +:+ " " +:+ meridiem
    /\ 1 <= h <= 12
    /\ (meridiem = "am" /\ 8 <= n <= 12 \/ meridiem = "pm" /\ (n < 8 \/ 12 < n)).
Proof.
  intros [Hlo Hhi]. unfold guessTime. simpl.
  destruct (Z.eqb_spec n 0) as [->|_]; [lia|]. simpl.
  destruct (Z.ltb_spec 12 n).
  - exists (n - 12), "pm". split; [reflexivity|]. split; [lia|]. right. split; [reflexivity|lia].
  - destruct (Z.ltb_spec n 8).
    + exists n, "pm". split; [reflexivity|]. split; [lia|]. right. split; [reflexivity|lia].
    + exists n, "am". split; [reflexivity|]. split; [lia|]. left. split; [reflexivity|lia].
Qed.

Lemma guessTime_hour_and_meridiem_witness :
  guessTime (Some 12) = "12 am" /\ guessTime (Some 24) = "12 pm"
  /\ exists (h : Z) (meridiem : string),
       guessTime (Some 24) = pretty h +:+ " " +:+ meridiem /\ 1 <= h <= 12
       /\ (meridiem = "am" /\ 8 <= 24 <= 12 \/ meridiem = "pm" /\ (24 < 8 \/ 12 < 24)).
Proof.
  split; [reflexivity|]. split; [reflexivity|].
  apply (guessTime_hour_and_meridiem 24). lia.
Defined.

Section RuleFacts.

Context `{E : CalendarEngine}.
Variable now : Date.
Variable f : Fields.

Lemma word_rules_need_a_word :
  intervalRule now f "" = [] /\ weekdayRule now f "" = [] /\ monthRule now f "" = []
  /\ todayRule now f "" = [] /\ tonightRule now f "" = [].
Proof.
  unfold intervalRule, intervalMatches, weekdayRule, weekdayMatches, monthRule,
    monthMatches. simpl. rewrite andb_false_r. repeat split.
Qed.

Lemma bare_rules_need_no_word (c : ascii) (w : string) :
  bareQuantity now f (String c w) = [] /\ bareTime now f (String c w) = [].
Proof. split; reflexivity. Qed.

End RuleFacts.

(** X9. The bare rules and the word rules never contribute together: with
    an empty word the interval, weekday, month, today and tonight rules give
    nothing, and with any word left the bare-quantity and bare-time rules
    give nothing, whatever digits were typed. *)
Theorem bare_rules_and_word_rules_exclusive `{E : CalendarEngine} (now : Date)
    (f : Fields) (word : string) :
  (word = EmptyString ->
   intervalRule now f word = [] /\ weekdayRule now f word = []
   /\ monthRule now f word = [] /\ todayRule now f word = []
   /\ tonightRule now f word = [])
  /\ (word <> EmptyString ->
      bareQuantity now f word = [] /\ bareTime now f word = []).
Proof.
  split.
  - intros ->. apply word_rules_need_a_word.
  - intros Hw. destruct word as [|c w]; [contradiction|]. apply bare_rules_need_no_word.
Qed.

Lemma bare_rules_and_word_rules_exclusive_witness :
  let now := Calendar.wednesdayMorning in
  tokenize "5 tue" = Ok (mkFields None None [5], "tue")
  /\ bareQuantity now (mkFields None None [5]) "tue" = []
  /\ bareTime now (mkFields None None [5]) "tue" = []
  /\ weekdayRule now (mkFields None None [5]) "" = [].
Proof.
  intros now. split; [reflexivity|].
  destruct (bare_rules_and_word_rules_exclusive now (mkFields None None [5]) "tue")
    as [_ Hword].
  destruct (Hword ltac:(discriminate)) as [Hq Ht].
  destruct (bare_rules_and_word_rules_exclusive now (mkFields None None [5]) "")
    as [Hempty _].
  destruct (Hempty eq_refl) as (_ & Hw & _).
  split; [exact Hq|]. split; [exact Ht|exact Hw].
Defined.

(** X10. With an explicit time the today rule never shifts the instant: a
    suggestion it gives is the engine's reading of "today <time>" itself,
    and that instant is in the future.  The twelve-hour correction of line
    109 is for guessed times only. *)
Theorem today_rule_keeps_explicit_time `{E : CalendarEngine} (now : Date) (f : Fields)
    (word : string) (ts : TimeSuggestion) :
  Js.truthyString (time f) = true ->
  In ts (todayRule now f word) ->
  date ts = create now ("today " +:+ default EmptyString (time f))
  /\ isFuture now (date ts) = true
  /\ natural ts = "today at " +:+ printConciseTime (date ts).
Proof.
  intros Htime. unfold todayRule, orString. rewrite Htime.
  destruct (todayFires word); [|intros []].
  destruct (isFuture now (create now ("today " +:+ default EmptyString (time f)))) eqn:Hfut.
  - intros [<-|[]]. simpl. auto.
  - rewrite andb_false_r. intros [].
Qed.

Lemma today_rule_keeps_explicit_time_witness :
  let now := Calendar.wednesdayMorning in
  let f := mkFields (Some "3 pm") None [] in
  tokenize "tod 3pm" = Ok (f, "tod")
  /\ isFuture now (create now "today 3 pm") = true
  /\ todayRule Calendar.wednesdayAfternoon f "tod" = [].
Proof.
  intros now f. split; [reflexivity|]. split; [|reflexivity].
  destruct (today_rule_keeps_explicit_time now f "tod"
              (suggestion "today at 3 pm" (create now "today 3 pm")) eq_refl
              (or_introl eq_refl)) as (Hd & Hfut & _).
  exact Hfut.
Defined.

(** ** The word "next" *)

Section Next.

Import Js.

Lemma trimStart_length (s : string) : (String.length (trimStart s) <= String.length s)%nat.
Proof.
  induction s as [|c s IH]; simpl; [lia|]. destruct (isSpace c); simpl; lia.
Qed.

Lemma startsWith_length (s p : string) :
  startsWith s p = true -> (String.length p <= String.length s)%nat.
Proof.
  revert p. induction s as [|a s IH]; intros [|b p]; simpl; try lia; try discriminate.
  intros [_ Hp]%andb_true_iff. specialize (IH p Hp). lia.
Qed.

Lemma drop_length (n : nat) (s : string) :
  String.length (drop n s) = (String.length s - n)%nat.
Proof.
  revert s. induction n as [|n IH]; intros [|c s]; simpl; try lia. apply IH.
Qed.

Lemma startsWith_next_no_space (s : string) :
  startsWith s "next" = true -> trimStart s = s.
Proof.
  destruct s as [|c s]; [discriminate|]. simpl.
  destruct (Ascii.eqb_spec c "n") as [->|]; [reflexivity|discriminate].
Qed.

End Next.

Lemma matchNextHere_None (s : string) :
  matchNextHere s = None -> Js.startsWith s "next" = false.
Proof.
  unfold matchNextHere. intros Hnone.
  destruct (Js.startsWith s "next") eqn:Hs; [|reflexivity].
  rewrite (startsWith_next_no_space s Hs), Hs in Hnone. discriminate.
Qed.

Lemma removeNext_cons (c : ascii) (s : string) :
  removeNext (String c s)
  = match matchNextHere (String c s) with
    | Some rest => rest
    | None => String c (removeNext s)
    end.
Proof. reflexivity. Qed.

(** ** The interval rule *)

Lemma stripFinalS_plural (s : string) : stripFinalS (s +:+ "s") = s.
Proof.
  induction s as [|c s IH]; [reflexivity|].
  change (String c s +:+ "s") with (String c (s +:+ "s")).
  cbn [stripFinalS]. rewrite IH. now destruct s.
Qed.

(** X12. For a count of one the interval rule prints the unit in the
    singular, the name of the unit without its last letter, while the
    phrase it sends to the engine keeps the plural: "for 1 hour" is dated
    by "in 1 hours". *)
Theorem interval_label_singular_for_one `{E : CalendarEngine} (now : Date) (f : Fields)
    (unit : string) :
  In unit intervalNames ->
  digit0 f = Some 1 ->
  natural (intervalSuggestion now f unit) +:+ "s" = "for 1 " +:+ unit
  /\ date (intervalSuggestion now f unit) = create now ("in 1 " +:+ unit).
Proof.
  intros Hunit Hone. unfold intervalSuggestion. rewrite Hone. simpl.
  split; [|reflexivity].
  assert (Hs : exists stem, unit = stem +:+ "s").
  { simpl in Hunit.
    destruct Hunit as [<-|[<-|[<-|[<-|[<-|[<-|[]]]]]]];
      [exists "minute"|exists "hour"|exists "day"|exists "week"|exists "month"|exists "year"];
      reflexivity. }
  destruct Hs as [stem ->]. now rewrite stripFinalS_plural.
Qed.

Lemma interval_label_singular_for_one_witness :
  labels (suggest Calendar.wednesdayMorning "1 h") = ["for 1 hour"]
  /\ natural (intervalSuggestion Calendar.wednesdayMorning (mkFields None None [1]) "hours")
     +:+ "s" = "for 1 hours".
Proof.
  split; [reflexivity|].
  exact (proj1 (interval_label_singular_for_one Calendar.wednesdayMorning
                  (mkFields None None [1]) "hours"
                  (or_intror (or_introl eq_refl)) eq_refl)).
Defined.

(** ** The month rule *)



(** * The engine's exceptions *)

Section RunFacts.

Context {X : Type}.

Lemma bind_Returned {A B : Type} (m : run X A) (k : A -> run X B) (b : B) :
  mbind k m = Returned b -> exists a, m = Returned a /\ k a = Returned b.
Proof. destruct m as [a|t]; simpl; [eauto|discriminate]. Qed.

Lemma forEach_Returned {A B : Type} (g : A -> run X B) (l : list A) (bs : list B) :
  forEach g l = Returned bs -> Forall2 (fun a b => g a = Returned b) l bs.
Proof.
  revert bs. induction l as [|a l IH]; intros bs; simpl.
  - intros [= <-]. constructor.
  - intros (b & Hb & Hrest)%bind_Returned.
    apply bind_Returned in Hrest as (bs' & Hbs' & [= <-]).
    constructor; auto.
Qed.

Lemma forEach_pure {A B : Type} (g : A -> run X B) (h : A -> B) (l : list A) (bs : list B) :
  (forall a b, g a = Returned b -> b = h a) ->
  forEach g l = Returned bs -> bs = map h l.
Proof.
  intros Hg Hrun. apply forEach_Returned in Hrun.
  induction Hrun as [|a b l bs Hab _ IH]; simpl; [reflexivity|].
  now rewrite (Hg a b Hab), IH.
Qed.

Lemma forEach_quiet {A B : Type} (g : A -> run X B) (h : A -> B) (l : list A) :
  (forall a, g a = Returned (h a)) -> forEach g l = Returned (map h l).
Proof.
  intros Hg. induction l as [|a l IH]; simpl; [reflexivity|].
  rewrite Hg. simpl. rewrite IH. reflexivity.
Qed.

Lemma engineOnly_Returned {A : Type} (a : A) : engineOnly (@Returned X A a).
Proof. intros e. discriminate. Qed.

Lemma engineOnly_bind {A B : Type} (m : run X A) (k : A -> run X B) :
  engineOnly m -> (forall a, engineOnly (k a)) -> engineOnly (mbind k m).
Proof.
  intros Hm Hk. destruct m as [a|t]; simpl; [apply Hk|].
  intros e He. apply (Hm e). injection He as ->. reflexivity.
Qed.

Lemma engineOnly_forEach {A B : Type} (g : A -> run X B) (l : list A) :
  (forall a, engineOnly (g a)) -> engineOnly (forEach g l).
Proof.
  intros Hg. induction l as [|a l IH]; simpl; [apply engineOnly_Returned|].
  apply engineOnly_bind; [apply Hg|]. intros b.
  apply engineOnly_bind; [exact IH|]. intros bs. apply engineOnly_Returned.
Qed.

End RunFacts.

Section RaisingFacts.

Context `{E : CalendarEngine} {X : EngineExceptions}.
Variable now : Date.
Variable f : Fields.
Variable word : string.

Lemma call_Returned {A : Type} (raises : option Exception) (value a : A) :
  Raising.call raises value = Returned a -> raises = None /\ a = value.
Proof. destruct raises; simpl; [discriminate|]. intros [= <-]. auto. Qed.

Lemma call_Returned_value {A : Type} (raises : option Exception) (value a : A) :
  Raising.call raises value = Returned a -> raises = None /\ value = a.
Proof. intros [Hr ->]%call_Returned. auto. Qed.

Lemma engineOnly_call {A : Type} (raises : option Exception) (value : A) :
  engineOnly (Raising.call raises value).
Proof. intros e. destruct raises; discriminate. Qed.

End RaisingFacts.

(** Takes a returned run apart, call by call. *)
Ltac run_inv :=
  repeat match goal with
  | H : mbind _ _ = Returned _ |- _ =>
      let a := fresh "a" in
      let Ha := fresh "Ha" in
      apply bind_Returned in H as (a & Ha & H)
  | H : Raising.call _ _ = Returned ?a |- _ =>
      let Hr := fresh "Hr" in
      first [ is_var a; apply call_Returned in H as [Hr ->]
            | apply call_Returned_value in H as [Hr H] ]
  | H : Returned _ = Returned ?a |- _ =>
      first [ is_var a; injection H as <- | injection H as H ]
  | H : Raised _ = Returned _ |- _ => discriminate H
  | H : (if ?b then _ else _) = Returned _ |- _ =>
      tryif is_var b then fail else destruct b eqn:?
  end.

Ltac run_done :=
  repeat match goal with
  | Heq : _ = true |- _ => rewrite Heq
  | Heq : _ = false |- _ => rewrite Heq
  end;
  reflexivity.

Ltac engine_only :=
  repeat first
    [ apply engineOnly_Returned
    | apply engineOnly_call
    | apply engineOnly_forEach; intros ?
    | apply engineOnly_bind; [|intros ?]
    | match goal with |- engineOnly (if ?b then _ else _) => destruct b end ].

Section RaisingRules.

Context `{E : CalendarEngine} {X : EngineExceptions}.
Variable now : Date.
Variable f : Fields.
Variable word : string.

(** Each rule, when it returns, returns what the rule of [suggest] gives on
    the engine's answers. *)
Lemma bareQuantity_pure l :
  Raising.bareQuantity now f word = Returned l -> l = bareQuantity now f word.
Proof.
  unfold Raising.bareQuantity, bareQuantity, Raising.create'. intros H.
  destruct (bareQuantityFires f word); run_inv; run_done.
Qed.

Lemma bareTime_pure l :
  Raising.bareTime now f word = Returned l -> l = bareTime now f word.
Proof.
  unfold Raising.bareTime, bareTime, rollPast, Raising.create', Raising.isPast',
    Raising.addHours', Raising.isToday', Raising.printConciseTime, Raising.format',
    printConciseTime.
  intros H. destruct (bareTimeFires f word); run_inv; run_done.
Qed.

Lemma intervalRule_pure l :
  Raising.intervalRule now f word = Returned l -> l = intervalRule now f word.
Proof.
  unfold Raising.intervalRule, intervalRule. apply forEach_pure.
  intros i ts H. unfold Raising.intervalSuggestion, Raising.create' in H.
  run_inv; run_done.
Qed.

Lemma weekdayRule_pure l :
  Raising.weekdayRule now f word = Returned l -> l = weekdayRule now f word.
Proof.
  unfold Raising.weekdayRule, weekdayRule. apply forEach_pure.
  intros d ts H.
  unfold Raising.weekdaySuggestion, Raising.create', Raising.isPast', Raising.isToday',
    Raising.addDays', Raising.format' in H.
  unfold weekdaySuggestion, rollWeek.
  run_inv; run_done.
Qed.

Lemma monthRule_pure l :
  Raising.monthRule now f word = Returned l -> l = monthRule now f word.
Proof.
  unfold Raising.monthRule, monthRule. apply forEach_pure.
  intros m ts H.
  unfold Raising.monthSuggestion, Raising.create', Raising.printConciseTime,
    Raising.format' in H.
  unfold monthSuggestion, printConciseTime.
  run_inv; run_done.
Qed.

Lemma todayRule_pure l :
  Raising.todayRule now f word = Returned l -> l = todayRule now f word.
Proof.
  unfold Raising.todayRule, todayRule, Raising.create', Raising.isFuture',
    Raising.isPast', Raising.addHours', Raising.printConciseTime, Raising.format',
    printConciseTime.
  intros H. destruct (todayFires word); run_inv;
    run_done.
Qed.

Lemma tomorrowRule_pure l :
  Raising.tomorrowRule now f word = Returned l -> l = tomorrowRule now f word.
Proof.
  unfold Raising.tomorrowRule, tomorrowRule, tomorrowSuggestion, Raising.create',
    Raising.printConciseTime, Raising.format', printConciseTime.
  intros H. destruct (tomorrowFires word); run_inv; run_done.
Qed.

Lemma tonightRule_pure l :
  Raising.tonightRule now f word = Returned l -> l = tonightRule now f word.
Proof.
  unfold Raising.tonightRule, tonightRule, Raising.create',
    Raising.printConciseTime, Raising.format', printConciseTime.
  intros H. destruct (tonightFires word); run_inv; run_done.
Qed.

Lemma candidates_pure l :
  Raising.candidates now f word = Returned l -> l = candidates now f word.
Proof.
  unfold Raising.candidates, candidates. intros H.
  apply bind_Returned in H as (r1 & H1 & H). apply bind_Returned in H as (r2 & H2 & H).
  apply bind_Returned in H as (r3 & H3 & H). apply bind_Returned in H as (r4 & H4 & H).
  apply bind_Returned in H as (r5 & H5 & H). apply bind_Returned in H as (r6 & H6 & H).
  apply bind_Returned in H as (r7 & H7 & H). apply bind_Returned in H as (r8 & H8 & H).
  injection H as <-.
  now rewrite (bareQuantity_pure _ H1), (bareTime_pure _ H2), (intervalRule_pure _ H3),
    (weekdayRule_pure _ H4), (monthRule_pure _ H5), (todayRule_pure _ H6),
    (tomorrowRule_pure _ H7), (tonightRule_pure _ H8).
Qed.

(** A returned tomorrow rule that fired has made its two calls. *)
Lemma tomorrowRule_calls l :
  Raising.tomorrowRule now f word = Returned l -> tomorrowFires word = true ->
  let d := create now ("tomorrow " +:+ orString (time f) (guessTime (digit0 f))) in
  createRaises now ("tomorrow " +:+ orString (time f) (guessTime (digit0 f))) = None
  /\ formatRaises d (concisePattern (getMinutes d)) = None.
Proof.
  intros H Hfires d.
  unfold Raising.tomorrowRule, Raising.create', Raising.printConciseTime, Raising.format'
    in H.
  rewrite Hfires in H. run_inv. auto.
Qed.

Lemma candidates_tomorrow l :
  Raising.candidates now f word = Returned l ->
  exists l7, Raising.tomorrowRule now f word = Returned l7.
Proof.
  unfold Raising.candidates. intros H.
  apply bind_Returned in H as (r1 & H1 & H). apply bind_Returned in H as (r2 & H2 & H).
  apply bind_Returned in H as (r3 & H3 & H). apply bind_Returned in H as (r4 & H4 & H).
  apply bind_Returned in H as (r5 & H5 & H). apply bind_Returned in H as (r6 & H6 & H).
  apply bind_Returned in H as (r7 & H7 & H). eauto.
Qed.

Lemma candidates_engineOnly : engineOnly (Raising.candidates now f word).
Proof.
  unfold Raising.candidates, Raising.bareQuantity, Raising.bareTime, Raising.intervalRule,
    Raising.intervalSuggestion, Raising.weekdayRule, Raising.weekdaySuggestion,
    Raising.monthRule, Raising.monthSuggestion, Raising.todayRule, Raising.tomorrowRule,
    Raising.tonightRule, Raising.printConciseTime, Raising.create', Raising.isPast',
    Raising.isFuture', Raising.isToday', Raising.addHours', Raising.addDays',
    Raising.format'.
  engine_only.
Qed.

End RaisingRules.

Section RaisingSuggest.

Context `{E : CalendarEngine} {X : EngineExceptions}.
Variable now : Date.

Lemma setPrecise_pure (ts ts' : TimeSuggestion) :
  Raising.setPrecise ts = Returned ts' ->
  ts' = setPrecise ts
  /\ formatRaises (date ts)
       ("{Dow}, {Mon} {d} at " +:+ concisePattern (getMinutes (date ts))) = None.
Proof.
  unfold Raising.setPrecise, Raising.printPrecise, Raising.format'. intros H.
  run_inv. auto.
Qed.

Lemma setPrecise_engineOnly (ts : TimeSuggestion) : engineOnly (Raising.setPrecise ts).
Proof.
  unfold Raising.setPrecise, Raising.printPrecise, Raising.format'. engine_only.
Qed.

Lemma suggest_Returned (input : string) (res : list TimeSuggestion) :
  Raising.suggest now input = Returned res ->
  exists f word l,
    tokenize input = Ok (f, word)
    /\ Raising.candidates now f word = Returned l
    /\ forEach Raising.setPrecise l = Returned res.
Proof.
  unfold Raising.suggest. destruct (tokenize input) as [[f word]|e]; [|discriminate].
  intros (l & Hl & Hres)%bind_Returned. eauto 6.
Qed.

(** A run of [suggest] that returns returns the list of [suggest]. *)
Lemma suggest_pure (input : string) (res : list TimeSuggestion) :
  Raising.suggest now input = Returned res -> suggest now input = Ok res.
Proof.
  intros (f & word & l & Htok & Hl & Hres)%suggest_Returned.
  rewrite (suggest_Ok now _ _ _ Htok). f_equal.
  rewrite <- (candidates_pure _ _ _ _ Hl). symmetry.
  apply (forEach_pure _ _ _ _ (fun ts ts' H => proj1 (setPrecise_pure ts ts' H)) Hres).
Qed.

Lemma suggest_formats_dates (input : string) (res : list TimeSuggestion)
    (ts : TimeSuggestion) :
  Raising.suggest now input = Returned res -> In ts res ->
  formatRaises (date ts)
    ("{Dow}, {Mon} {d} at " +:+ concisePattern (getMinutes (date ts))) = None.
Proof.
  intros (f & word & l & _ & _ & Hres)%suggest_Returned Hin.
  apply forEach_Returned in Hres. clear -Hres Hin.
  induction Hres as [|a b l bs Hab _ IH]; [destruct Hin|].
  destruct Hin as [<-|Hin]; [|auto].
  destruct (setPrecise_pure a b Hab) as [-> Hraises]. exact Hraises.
Qed.

Lemma suggest_engineOnly (input : string) (f : Fields) (word : string) :
  tokenize input = Ok (f, word) -> engineOnly (Raising.suggest now input).
Proof.
  intros Htok. unfold Raising.suggest. rewrite Htok.
  apply engineOnly_bind; [apply candidates_engineOnly|].
  intros l. apply engineOnly_forEach. apply setPrecise_engineOnly.
Qed.

End RaisingSuggest.

Section Quiet.

Context `{E : CalendarEngine} {X : EngineExceptions}.
Hypothesis Hquiet : quiet.
Variable now : Date.

Ltac hush :=
  destruct Hquiet as (Hc & Hp & Hf & Ht & Hh & Hd & Hfmt);
  unfold Raising.printConciseTime, Raising.printPrecise, Raising.create',
    Raising.isPast', Raising.isFuture', Raising.isToday', Raising.addHours',
    Raising.addDays', Raising.format';
  repeat first [ rewrite Hc | rewrite Hp | rewrite Hf | rewrite Ht | rewrite Hh
               | rewrite Hd | rewrite Hfmt
               | progress cbn [Raising.call mbind run_bind andb]
               | match goal with
                 | |- context [if ?b then _ else _] => destruct b eqn:?
                 end ];
  try reflexivity.

Lemma bareQuantity_quiet f word :
  Raising.bareQuantity now f word = Returned (bareQuantity now f word).
Proof. unfold Raising.bareQuantity, bareQuantity. hush. Qed.

Lemma bareTime_quiet f word :
  Raising.bareTime now f word = Returned (bareTime now f word).
Proof. unfold Raising.bareTime, bareTime, rollPast, printConciseTime. hush. Qed.

Lemma intervalRule_quiet f word :
  Raising.intervalRule now f word = Returned (intervalRule now f word).
Proof.
  unfold Raising.intervalRule, intervalRule. apply forEach_quiet. intros i.
  unfold Raising.intervalSuggestion, intervalSuggestion. hush.
Qed.

Lemma weekdayRule_quiet f word :
  Raising.weekdayRule now f word = Returned (weekdayRule now f word).
Proof.
  unfold Raising.weekdayRule, weekdayRule. apply forEach_quiet. intros d.
  unfold Raising.weekdaySuggestion, weekdaySuggestion, rollWeek. hush.
Qed.

Lemma monthRule_quiet f word :
  Raising.monthRule now f word = Returned (monthRule now f word).
Proof.
  unfold Raising.monthRule, monthRule. apply forEach_quiet. intros m.
  unfold Raising.monthSuggestion, monthSuggestion, printConciseTime. hush.
Qed.

Lemma todayRule_quiet f word :
  Raising.todayRule now f word = Returned (todayRule now f word).
Proof. unfold Raising.todayRule, todayRule, printConciseTime. hush. Qed.

Lemma tomorrowRule_quiet f word :
  Raising.tomorrowRule now f word = Returned (tomorrowRule now f word).
Proof.
  unfold Raising.tomorrowRule, tomorrowRule, tomorrowSuggestion, printConciseTime. hush.
Qed.

Lemma tonightRule_quiet f word :
  Raising.tonightRule now f word = Returned (tonightRule now f word).
Proof. unfold Raising.tonightRule, tonightRule, printConciseTime. hush. Qed.

Lemma setPrecise_quiet ts : Raising.setPrecise ts = Returned (setPrecise ts).
Proof. unfold Raising.setPrecise, setPrecise, printPrecise. hush. Qed.

(** With an engine that never raises, the run is [suggest]. *)
Lemma suggest_quiet (input : string) :
  Raising.suggest now input = asRun (suggest now input).
Proof.
  unfold Raising.suggest, suggest, Raising.candidates, candidates.
  destruct (tokenize input) as [[f word]|e]; [|reflexivity].
  rewrite bareQuantity_quiet, bareTime_quiet, intervalRule_quiet, weekdayRule_quiet,
    monthRule_quiet, todayRule_quiet, tomorrowRule_quiet, tonightRule_quiet.
  simpl. apply forEach_quiet, setPrecise_quiet.
Qed.

End Quiet.

Lemma neverRaises_quiet `{E : CalendarEngine} : @quiet E neverRaises.
Proof. repeat split. Qed.

(** ** Phrases the engine cannot read *)




(** X1. Line 31 raises its [RangeError] exactly when some digit run of the
    input carries a minute group longer than three characters.  Then
    [suggest] ends there, before any call of the engine and whatever the
    engine does; otherwise the tokenizer completes, and only an exception
    of the engine can end the call. *)
Theorem range_error_iff_long_minute (input : string) :
  (returns (tokenize input)
   <-> Forall (fun m => (String.length (minuteOf m) <= 3)%nat)
              (digitMatches (normalize input)))
  /\ (forall `(E : CalendarEngine) (X : EngineExceptions) (now : Date),
        Raising.suggest now input = Raised (ByTokenizer RangeError)
        <-> Exists (fun m => (3 < String.length (minuteOf m))%nat)
                   (digitMatches (normalize input))).
Proof.
  pose proof (tokenize_returns input) as Hret. split; [exact Hret|].
  intros E X now. split.
  - intros Hrun.
    destruct (minutes_short_or_long (digitMatches (normalize input))) as [Hall|Hex];
      [|exact Hex].
    apply Hret in Hall. destruct Hall as [[f word] Htok].
    exfalso. exact (suggest_engineOnly now input f word Htok RangeError Hrun).
  - intros Hex. unfold Raising.suggest.
    destruct (tokenize input) as [[f word]|[]] eqn:Htok; [|reflexivity].
    exfalso. apply (minutes_short_not_long (digitMatches (normalize input))); [|exact Hex].
    apply Hret. now exists (f, word).
Qed.

(** ** The last run wins, on the groups of the pattern *)

Lemma matchSuffix_cases (r : string) :
  In (matchSuffix r)
     [Some "am"; Some "a"; Some "pm"; Some "p"; Some "st"; Some "nd"; Some "rd";
      Some "th"; None].
Proof.
  unfold matchSuffix.
  repeat match goal with
         | |- context [if ?b then _ else _] => destruct b
         end; simpl; tauto.
Qed.

(** What the pattern can capture: a minute group is never empty, and the
    suffix is one of the eight of the alternation. *)
Lemma matchDigits_groups (s : string) (m : DigitMatch) (len : nat) :
  matchDigits s = Some (m, len) ->
  (min m = None \/ exists c ds, min m = Some (String c ds))
  /\ In (suffix m)
        [Some "am"; Some "a"; Some "pm"; Some "p"; Some "st"; Some "nd"; Some "rd";
         Some "th"; None].
Proof.
  unfold matchDigits. destruct (Js.span Js.isDigit s) as [n r1].
  destruct (Js.isEmpty n); [discriminate|].
  destruct (matchMinute r1) as [mm r2] eqn:Hmm.
  destruct (Js.span Js.isSpace r2) as [ws r3]. intros [= <- _]. simpl. split.
  - destruct mm as [mn|]; [right|now left].
    assert (Hfst : fst (matchMinute r1) = Some mn) by now rewrite Hmm.
    apply matchMinute_shape in Hfst as (c & ds & -> & _). eauto.
  - apply matchSuffix_cases.
Qed.

Lemma scan_matches (s : string) (skip : nat) (m : DigitMatch) :
  In m (matchesOf (scan skip s)) -> exists s' len, matchDigits s' = Some (m, len).
Proof.
  revert skip. induction s as [|c s IH]; intros skip; simpl; [intros []|].
  destruct skip as [|k]; [|apply IH].
  destruct (matchDigits (String c s)) as [[m' len]|] eqn:Hm; simpl.
  - intros [<-|Hin]; [eauto|]. eapply IH, Hin.
  - apply IH.
Qed.

(** The tests of lines 28 and 38 on the groups of a match of the pattern. *)
Lemma tests_on_groups (s : string) (m : DigitMatch) (len : nat) :
  matchDigits s = Some (m, len) ->
  isExplicitTime m = hasMinute m || meridiemSuffix m
  /\ isOrdinal m = ordinalSuffix m && negb (hasMinute m).
Proof.
  intros Hm. destruct (matchDigits_groups s m len Hm) as [Hmin Hsuffix].
  unfold isOrdinal, isExplicitTime, minuteOf, hasMinute, meridiemSuffix, ordinalSuffix,
    suffixIn.
  destruct Hmin as [->|(c & ds & ->)]; simpl in Hsuffix;
    repeat (destruct Hsuffix as [<-|Hsuffix]; [split; reflexivity|]);
    destruct Hsuffix.
Qed.

Lemma filter_tests_on_groups (s : string) :
  List.filter isExplicitTime (digitMatches s)
  = List.filter (fun m => hasMinute m || meridiemSuffix m) (digitMatches s)
  /\ List.filter isOrdinal (digitMatches s)
     = List.filter (fun m => ordinalSuffix m && negb (hasMinute m)) (digitMatches s).
Proof.
  split; apply List.filter_ext_in; intros m Hin;
    apply scan_matches in Hin as (s' & len & Hm);
    now destruct (tests_on_groups s' m len Hm).
Qed.

(** C7, as the specification has it, fails on the day of the month: in
    "2nd 3:15th" the last run that carries an ordinal suffix is "3:15th",
    but it has a minute group, line 28 takes it as a time, and the day of
    the month stays the 2 of the first run. *)
Lemma ordinal_after_minutes_is_a_time :
  let ms := digitMatches (normalize "2nd 3:15th") in
  ms = [mkDigitMatch "2" None (Some "nd"); mkDigitMatch "3" (Some ":15") (Some "th")]
  /\ last (List.filter ordinalSuffix ms) = Some (mkDigitMatch "3" (Some ":15") (Some "th"))
  /\ classify "2nd 3:15th" = Ok (mkFields (Some "3:15 pm") (Some 2) [])
  /\ ~ (exists f, classify "2nd 3:15th" = Ok f /\ dayOfMonth f = Some (Js.parseInt "3")).
Proof.
  intros ms. split; [reflexivity|]. split; [reflexivity|]. split; [reflexivity|].
  intros (f & Hf & Hday). vm_compute in Hf. injection Hf as <-. discriminate.
Qed.

(** C7, as the code has it. When several digit runs qualify as an explicit
    time (a minute group, or a suffix that starts with "a" or "p"), the one
    explicit time that is set comes from the last of them; when several
    carry an ordinal suffix and no minute group, the one day of the month
    that is set is the value of the last of them.  A run with a minute group
    and an ordinal suffix counts as a time. *)
Theorem last_qualifying_run_wins (input : string) (f : Fields) :
  classify input = Ok f ->
  let ms := digitMatches (normalize input) in
  match last (List.filter (fun m => hasMinute m || meridiemSuffix m) ms) with
  | Some m => exists t, onMatch m = Ok (ExplicitTime t) /\ time f = Some t
  | None => time f = None
  end
  /\ match last (List.filter (fun m => ordinalSuffix m && negb (hasMinute m)) ms) with
     | Some m => dayOfMonth f = Some (Js.parseInt (num m))
     | None => dayOfMonth f = None
     end.
Proof.
  intros Hf ms. unfold classify in Hf. subst ms.
  destruct (classifyAll (digitMatches (normalize input))) as [cs|e] eqn:Hcs;
    simpl in Hf; [|discriminate].
  injection Hf as <-. pose proof (classifyAll_lastWins _ _ Hcs) as Hlast.
  unfold lastWins in Hlast.
  destruct (filter_tests_on_groups (normalize input)) as [Htime Hday].
  rewrite Htime, Hday in Hlast. exact Hlast.
Qed.

Lemma last_qualifying_run_wins_witness :
  classify "3pm 4:15 2nd 5th 7" = Ok (mkFields (Some "4:15 pm") (Some 5) [7])
  /\ (exists t, onMatch (mkDigitMatch "4" (Some ":15") None) = Ok (ExplicitTime t)
                /\ Some "4:15 pm" = Some t)
  /\ Some 5 = Some (Js.parseInt "5").
Proof.
  split; [reflexivity|].
  exact (last_qualifying_run_wins "3pm 4:15 2nd 5th 7"
           (mkFields (Some "4:15 pm") (Some 5) [7]) eq_refl).
Defined.

(** ** What line 81 removes *)

Lemma trimStart_split (s : string) :
  exists ws, s = ws +:+ Js.trimStart s /\ Js.forallChars Js.isSpace ws = true.
Proof.
  induction s as [|c s (ws & Hs & Hws)]; [now exists EmptyString|].
  simpl. destruct (Js.isSpace c) eqn:Hc.
  - exists (String c ws). split.
    { change (String c ws +:+ Js.trimStart s) with (String c (ws +:+ Js.trimStart s)).
      f_equal. exact Hs. }
    now rewrite forallChars_cons, Hc, Hws.
  - now exists EmptyString.
Qed.

Lemma startsWith_split (s p : string) :
  Js.startsWith s p = true -> s = p +:+ Js.drop (String.length p) s.
Proof.
  revert s. induction p as [|b p IH]; intros [|a s]; simpl; try discriminate; try reflexivity.
  intros [Hab Hp]%andb_true_iff. apply Ascii.eqb_eq in Hab as ->.
  change (String b s = String b (p +:+ Js.drop (String.length p) s)).
  f_equal. exact (IH s Hp).
Qed.

Lemma matchNextHere_split (s rest : string) :
  matchNextHere s = Some rest ->
  exists ws post, s = ws +:+ "next" +:+ post /\ Js.forallChars Js.isSpace ws = true
                  /\ rest = Js.trimStart post.
Proof.
  unfold matchNextHere. destruct (Js.startsWith (Js.trimStart s) "next") eqn:Hn; [|discriminate].
  intros Heq. assert (rest = Js.trimStart (Js.drop 4 (Js.trimStart s))) as -> by congruence.
  destruct (trimStart_split s) as (ws & Hs & Hws).
  exists ws, (Js.drop 4 (Js.trimStart s)). split; [|auto].
  rewrite Hs at 1. f_equal. exact (startsWith_split _ _ Hn).
Qed.

Lemma removeNext_split (s : string) (prev : option ascii) :
  matchesNextFrom prev s = true ->
  exists pre ws post,
    s = pre +:+ ws +:+ "next" +:+ post
    /\ Js.forallChars Js.isSpace ws = true
    /\ (forall n, (n < String.length pre)%nat -> Js.startsWith (Js.drop n s) "next" = false)
    /\ removeNext s = pre +:+ Js.trimStart post.
Proof.
  revert prev. induction s as [|c s IH]; intros prev; [discriminate|].
  rewrite removeNext_cons. cbn [matchesNextFrom].
  destruct (matchNextHere (String c s)) as [rest|] eqn:Hm.
  - intros _. apply matchNextHere_split in Hm as (ws & post & Hs & Hws & ->).
    exists EmptyString, ws, post. split; [exact Hs|]. split; [exact Hws|].
    split; [simpl; intros n Hn; lia|reflexivity].
  - pose proof (matchNextHere_None _ Hm) as Hhead.
    rewrite Hhead, andb_false_r. simpl. intros Hrest.
    destruct (IH _ Hrest) as (pre & ws & post & Hs & Hws & Hleft & Hrem).
    exists (String c pre), ws, post. split.
    { change (String c pre +:+ ws +:+ "next" +:+ post)
        with (String c (pre +:+ ws +:+ "next" +:+ post)).
      f_equal. exact Hs. }
    split; [exact Hws|]. split; [|now rewrite Hrem].
    intros [|n] Hn; [exact Hhead|]. simpl in Hn. simpl. apply Hleft. lia.
Qed.



(** ** Zero *)

Lemma tokenize_zero (ds : string) :
  Js.allDigits ds = true -> Js.parseInt ds = 0 ->
  tokenize ds = Ok (mkFields None None [0], "").
Proof. intros Hds Hz. rewrite (tokenize_digits ds Hds), Hz. reflexivity. Qed.

(** C2, on the code. A run of digits whose value is zero ("0", "00") is one
    ambiguous digit with an empty word and no explicit time, and yet neither
    bare rule fires: lines 57 and 63 test [digits[0]] for truth and zero is
    false.  The list is the tomorrow rule's suggestion alone, at the default
    "8 am".  The interval rule asks for [digits.length > 0] instead and does
    take a zero: "0 h" gives "for 0 hours". *)
Theorem zero_digits_fire_no_bare_rule `{E : CalendarEngine} (now : Date) (ds : string) :
  Js.allDigits ds = true ->
  Js.parseInt ds = 0 ->
  let f := mkFields None None [0] in
  let d := create now "tomorrow 8 am" in
  tokenize ds = Ok (f, "")
  /\ bareQuantity now f "" = []
  /\ bareTime now f "" = []
  /\ suggest now ds = Ok [setPrecise (suggestion ("tomorrow at " +:+ printConciseTime d) d)]
  /\ suggest now "0 h" = Ok [setPrecise (suggestion "for 0 hours" (create now "in 0 hours"))].
Proof.
  intros Hds Hz f d. pose proof (tokenize_zero ds Hds Hz) as Htok.
  split; [exact Htok|]. split; [reflexivity|]. split; [reflexivity|].
  split; [|reflexivity].
  rewrite (suggest_Ok now ds _ _ Htok), candidates_empty_word. reflexivity.
Qed.

Lemma zero_digits_fire_no_bare_rule_witness :
  labels (suggest Calendar.wednesdayMorning "00") = ["tomorrow at 8 am"]
  /\ labels (suggest Calendar.wednesdayMorning "0 h") = ["for 0 hours"].
Proof.
  destruct (zero_digits_fire_no_bare_rule Calendar.wednesdayMorning "00" eq_refl eq_refl)
    as (_ & _ & _ & Hzero & Hinterval).
  split; [rewrite Hzero|rewrite Hinterval]; reflexivity.
Defined.
